(** * North Sussex Judo training fee calculator: model and verification

    A shallow embedding of [north_sussex_judo.py]: the configuration tables of
    [TrainingConfig], the validating constructor and the calculations of
    [Athlete], the helper [validate_number_input], and the registry held by
    [JudoManagementSystem] (the athlete list, the form fields and the widgets
    the callbacks read back), followed by the properties proved about them.

    Python values are modelled as follows.
    - [float] is the kernel's binary64 type, with the IEEE operations Python
      uses; a mixed [int]/[float] operation converts the integer first
      ([float_of_int]), which is exact for every integer of this program.
      [float(text)], the reading of a number from a text, is a parameter of
      the callbacks ([py_float]).
    - [int] is [Z].
    - [str] is [string]; a character is a code point below 256.
    - an exception is a value of [exn]; a function that can raise returns a
      [result].
    - a [dict] that is iterated in insertion order is an association list.
    The text of a report and of a table line is left out: a report is the
    tuple of the values its template is filled with, a line the tuple of the
    values shown.  [format_currency] and its two-decimal format are modelled
    on their own ([format_f]). *)

From Stdlib Require Import ZArith List String Ascii Bool Lia QArith Floats DecimalString.
Import ListNotations.

Set Warnings "-inexact-float".

Local Open Scope string_scope.
Local Open Scope Z_scope.

(** ** Python strings *)

Module PyStr.

(** [str.isspace] on one character (code points below 256). *)
Definition isspace (c : ascii) : bool :=
  let n := N_of_ascii c in
  ((9 <=? n) && (n <=? 13) || (28 <=? n) && (n <=? 32) || (n =? 133) || (n =? 160))%N.

Fixpoint lstrip (s : string) : string :=
  match s with
  | EmptyString => EmptyString
  | String c rest => if isspace c then lstrip rest else s
  end.

Fixpoint rstrip (s : string) : string :=
  match s with
  | EmptyString => EmptyString
  | String c rest =>
      match rstrip rest with
      | EmptyString => if isspace c then EmptyString else String c EmptyString
      | kept => String c kept
      end
  end.

(** [s.strip()] *)
Definition strip (s : string) : string := rstrip (lstrip s).

Definition lower_char (c : ascii) : ascii :=
  let n := N_of_ascii c in
  if ((65 <=? n) && (n <=? 90) || (192 <=? n) && (n <=? 222) && negb (n =? 215))%N
  then ascii_of_N (n + 32)
  else c.

(** [s.lower()] *)
Fixpoint lower (s : string) : string :=
  match s with
  | EmptyString => EmptyString
  | String c rest => String (lower_char c) (lower rest)
  end.

(** [sub in s] *)
Fixpoint contains (sub s : string) : bool :=
  String.prefix sub s
  || match s with
     | EmptyString => false
     | String _ rest => contains sub rest
     end.

(** [str(n)] for an integer. *)
Definition of_int (n : Z) : string :=
  match n with
  | Z0 => "0"
  | Zpos p => DecimalString.NilEmpty.string_of_uint (Pos.to_uint p)
  | Zneg p => "-" ++ DecimalString.NilEmpty.string_of_uint (Pos.to_uint p)
  end.

(** [repr(s)] of a string without quotes, backslashes or control
    characters, and [str(l)] of a list of such strings. *)
Definition repr (s : string) : string := "'" ++ s ++ "'".

Definition of_list (l : list string) : string :=
  "[" ++ String.concat ", " (map repr l) ++ "]".

End PyStr.

(** ** Python floats *)

Module PyFloat.

(** [float(n)] for an integer: the nearest double, ties to even.  Python
    raises [OverflowError] where this gives an infinity (from 2^1024 on). *)
Definition float_of_int (n : Z) : float :=
  SF2Prim (binary_normalize prec emax n 0 false).

(** Truncation towards zero of a finite double. *)
Definition trunc (x : float) : option Z :=
  match Prim2SF x with
  | S754_zero _ => Some 0
  | S754_finite s m e => Some (cond_Zopp s (Z.shiftl (Zpos m) e))
  | S754_infinity _ | S754_nan => None
  end.

(** The rational a finite double stands for. *)
Definition to_Q (x : float) : option Q :=
  match Prim2SF x with
  | S754_zero _ => Some (0 # 1)
  | S754_finite s m e =>
      Some (match e with
            | Z0 => cond_Zopp s (Zpos m) # 1
            | Zpos k => cond_Zopp s (Zpos m * 2 ^ Zpos k) # 1
            | Zneg k => cond_Zopp s (Zpos m) # (2 ^ k)
            end)
  | S754_infinity _ | S754_nan => None
  end.

(** [x] is finite and its value is exactly [q]. *)
Definition exactly (x : float) (q : Q) : Prop :=
  exists v, to_Q x = Some v /\ (v == q)%Q.

End PyFloat.

(** ** Exceptions *)

Inductive exn : Type :=
| ValueError (msg : string)
| KeyError (key : string)
| OverflowError (msg : string)
| ZeroDivisionError
| TclError (msg : string).

(** [str(e)] *)
Definition exn_str (e : exn) : string :=
  match e with
  | ValueError msg | OverflowError msg | TclError msg => msg
  | ZeroDivisionError => "division by zero"
  | KeyError key => PyStr.repr key
  end.

Inductive result (A : Type) : Type :=
| Ok (value : A)
| Raise (e : exn).
Arguments Ok {A} value.
Arguments Raise {A} e.

Definition bind {A B : Type} (c : result A) (k : A -> result B) : result B :=
  match c with
  | Ok value => k value
  | Raise e => Raise e
  end.

Declare Scope result_scope.
Delimit Scope result_scope with result.
Notation "x <- c ;; k" := (bind c (fun x => k))
  (at level 61, c at next level, right associativity) : result_scope.

(** ** Dictionaries in insertion order *)

Fixpoint dict_get {V : Type} (d : list (string * V)) (key : string) : option V :=
  match d with
  | [] => None
  | (k, v) :: rest => if (k =? key)%string then Some v else dict_get rest key
  end.

(** [key in d] *)
Definition dict_mem {V : Type} (d : list (string * V)) (key : string) : bool :=
  match dict_get d key with Some _ => true | None => false end.

(** [d[key]] *)
Definition dict_getitem {V : Type} (d : list (string * V)) (key : string) : result V :=
  match dict_get d key with
  | Some v => Ok v
  | None => Raise (KeyError key)
  end.

(** [d[key] = v]: an existing key keeps its position. *)
Fixpoint dict_set {V : Type} (d : list (string * V)) (key : string) (v : V)
  : list (string * V) :=
  match d with
  | [] => [(key, v)]
  | (k, old) :: rest =>
      if (k =? key)%string then (k, v) :: rest else (k, old) :: dict_set rest key v
  end.

(** ** class TrainingConfig *)

Module TrainingConfig.

Record plan : Type := { sessions_per_week : Z; weekly_fee : float }.

Definition TRAINING_PLANS : list (string * plan) :=
  [ ("Beginner", {| sessions_per_week := 2; weekly_fee := 25.00 |});
    ("Intermediate", {| sessions_per_week := 3; weekly_fee := 30.00 |});
    ("Elite", {| sessions_per_week := 5; weekly_fee := 35.00 |}) ].

(** The five integer limits are doubles; the last is [float('inf')]. *)
Definition WEIGHT_CATEGORIES : list (string * float) :=
  [ ("Flyweight", 66%float);
    ("Lightweight", 73%float);
    ("Light-Middleweight", 81%float);
    ("Middleweight", 90%float);
    ("Light-Heavyweight", 100%float);
    ("Heavyweight", infinity) ].

Definition PRIVATE_COACHING_RATE : float := 9.50.
Definition COMPETITION_ENTRY_FEE : float := 22.00.
Definition MAX_PRIVATE_COACHING_HOURS : Z := 5.
Definition WEEKS_PER_MONTH : Z := 4.

End TrainingConfig.

(** ** class Athlete *)

Module Athlete.
Import TrainingConfig PyFloat.
Local Open Scope result_scope.

Record t : Type := {
  name : string;
  training_plan : string;
  current_weight : float;
  competitions : Z;
  private_coaching_hours : Z;
  weight_category : string
}.

Definition _validate_name (name : string) : result string :=
  let name := PyStr.strip name in
  if (name =? "")%string
  then Raise (ValueError "Athlete name cannot be empty")
  else Ok name.

Definition _validate_training_plan (plan : string) : result string :=
  if negb (dict_mem TRAINING_PLANS plan)
  then Raise (ValueError ("Training plan must be one of: "
                          ++ PyStr.of_list (map fst TRAINING_PLANS)))
  else Ok plan.

(** [weight > 200] is the comparison [200 < weight]. *)
Definition _validate_weight (weight : float) : result float :=
  if (weight <=? 0)%float
  then Raise (ValueError "Weight must be greater than 0 kg")
  else if (200 <? weight)%float
  then Raise (ValueError "Weight value seems unrealistic")
  else Ok weight.

Definition _validate_competitions (competitions : Z) (training_plan : string)
  : result Z :=
  if competitions <? 0
  then Raise (ValueError "Number of competitions cannot be negative")
  else if (training_plan =? "Beginner")%string && (competitions >? 0)
  then Raise (ValueError "Beginner athletes cannot enter competitions")
  else if competitions >? 4
  then Raise (ValueError "Maximum 4 competitions per month allowed")
  else Ok competitions.

Definition _validate_coaching_hours (hours : Z) : result Z :=
  if hours <? 0
  then Raise (ValueError "Private coaching hours cannot be negative")
  else if hours >? MAX_PRIVATE_COACHING_HOURS
  then Raise (ValueError ("Maximum " ++ PyStr.of_int MAX_PRIVATE_COACHING_HOURS
                          ++ " hours of private coaching per week"))
  else Ok hours.

(** The loop over [WEIGHT_CATEGORIES.items()]: the first category whose
    limit the weight does not exceed. *)
Fixpoint first_category (items : list (string * float)) (weight : float)
  : option string :=
  match items with
  | [] => None
  | (category, upper_limit) :: rest =>
      if (weight <=? upper_limit)%float then Some category
      else first_category rest weight
  end.

Definition _determine_weight_category (current_weight : float) : string :=
  match first_category WEIGHT_CATEGORIES current_weight with
  | Some category => category
  | None => "Heavyweight"
  end.

Definition __init__ (name training_plan : string) (current_weight : float)
    (competitions private_coaching_hours : Z) : result t :=
  name' <- _validate_name name ;;
  training_plan' <- _validate_training_plan training_plan ;;
  current_weight' <- _validate_weight current_weight ;;
  competitions' <- _validate_competitions competitions training_plan ;;
  private_coaching_hours' <- _validate_coaching_hours private_coaching_hours ;;
  Ok {| name := name';
        training_plan := training_plan';
        current_weight := current_weight';
        competitions := competitions';
        private_coaching_hours := private_coaching_hours';
        weight_category := _determine_weight_category current_weight' |}.

(** The dictionary [calculate_monthly_fees] returns. *)
Record fees : Type := {
  training_cost : float;
  coaching_cost : float;
  competition_cost : float;
  total_cost : float
}.

Definition calculate_monthly_fees (self : t) : result fees :=
  plan <- dict_getitem TRAINING_PLANS (training_plan self) ;;
  let training_cost := (weekly_fee plan * float_of_int WEEKS_PER_MONTH)%float in
  let coaching_cost :=
    (float_of_int (private_coaching_hours self * WEEKS_PER_MONTH)
     * PRIVATE_COACHING_RATE)%float in
  let competition_cost :=
    (float_of_int (competitions self) * COMPETITION_ENTRY_FEE)%float in
  let total_cost := (training_cost + coaching_cost + competition_cost)%float in
  Ok {| training_cost := training_cost;
        coaching_cost := coaching_cost;
        competition_cost := competition_cost;
        total_cost := total_cost |}.

(** The four sentences [get_weight_analysis] can return, each with the
    values its template is filled with. *)
Inductive analysis : Type :=
| NoUpperLimit (weight : float)
| WellWithin (weight : float) (category : string) (limit : float)
| CloseTo (weight : float) (category : string) (limit : float)
| Over (weight : float) (category : string) (limit : float).

Definition get_weight_analysis (self : t) : result analysis :=
  category_limit <- dict_getitem WEIGHT_CATEGORIES (weight_category self) ;;
  if (weight_category self =? "Heavyweight")%string
  then Ok (NoUpperLimit (current_weight self))
  else
    let weight_difference := (category_limit - current_weight self)%float in
    if (5 <? weight_difference)%float
    then Ok (WellWithin (current_weight self) (weight_category self) category_limit)
    else if (0 <? weight_difference)%float
    then Ok (CloseTo (current_weight self) (weight_category self) category_limit)
    else Ok (Over (current_weight self) (weight_category self) category_limit).

End Athlete.

(** ** Module-level helpers *)

(** [int(x)] for a float. *)
Definition py_int (x : float) : result Z :=
  match PyFloat.trunc x with
  | Some n => Ok n
  | None =>
      if PrimFloat.is_nan x
      then Raise (ValueError "cannot convert float NaN to integer")
      else Raise (OverflowError "cannot convert float infinity to integer")
  end.

(** ** Reports *)


(** What [generate_fee_report] prints: the plan, the fee lines (the coaching
    and competition lines only when positive) and the weight sentence. *)
Record fee_report : Type := {
  report_name : string;
  report_plan : string;
  report_sessions : Z;
  report_training : float;
  report_coaching : option (Z * float);
  report_competitions : option (Z * float);
  report_total : float;
  report_weight : Athlete.analysis
}.

Definition generate_fee_report (athlete : Athlete.t) : result fee_report :=
  (fees <- Athlete.calculate_monthly_fees athlete ;;
   plan <- dict_getitem TrainingConfig.TRAINING_PLANS (Athlete.training_plan athlete) ;;
   weight <- Athlete.get_weight_analysis athlete ;;
   Ok {| report_name := Athlete.name athlete;
         report_plan := Athlete.training_plan athlete;
         report_sessions := TrainingConfig.sessions_per_week plan;
         report_training := Athlete.training_cost fees;
         report_coaching :=
           if Athlete.private_coaching_hours athlete >? 0
           then Some (Athlete.private_coaching_hours athlete, Athlete.coaching_cost fees)
           else None;
         report_competitions :=
           if Athlete.competitions athlete >? 0
           then Some (Athlete.competitions athlete, Athlete.competition_cost fees)
           else None;
         report_total := Athlete.total_cost fees;
         report_weight := weight |})%result.

(** The facility summary: head count, revenue, average fee and the plan
    distribution (the time stamp is not modelled). *)
Record summary : Type := {
  summary_athletes : Z;
  summary_revenue : float;
  summary_average : float;
  summary_plans : list (string * Z)
}.

Inductive report_block : Type :=
| FeeReport (r : fee_report)
| Summary (s : summary).

(** ** class JudoManagementSystem: the object *)

(** A line of the overview table. *)
Record row : Type := {
  row_name : string;
  row_plan : string;
  row_weight : float;
  row_category : string;
  row_competitions : Z;
  row_coaching : Z;
  row_fee : float
}.

(** The athlete list, the five form fields, and the widgets the callbacks
    fill: the overview table, the selector and the report box. *)
Record JudoManagementSystem : Type := {
  athletes : list Athlete.t;
  name_field : string;
  plan_var : string;
  weight_field : string;
  competitions_field : string;
  coaching_field : string;
  athlete_display : list row;
  athlete_selector : list string;
  selected_athlete_var : string;
  report_display : list report_block
}.

Definition set_athletes (l : list Athlete.t) (self : JudoManagementSystem) :=
  {| athletes := l; name_field := name_field self; plan_var := plan_var self;
     weight_field := weight_field self; competitions_field := competitions_field self;
     coaching_field := coaching_field self; athlete_display := athlete_display self;
     athlete_selector := athlete_selector self;
     selected_athlete_var := selected_athlete_var self;
     report_display := report_display self |}.

Definition set_form (name plan weight competitions coaching : string)
    (self : JudoManagementSystem) :=
  {| athletes := athletes self; name_field := name; plan_var := plan;
     weight_field := weight; competitions_field := competitions;
     coaching_field := coaching; athlete_display := athlete_display self;
     athlete_selector := athlete_selector self;
     selected_athlete_var := selected_athlete_var self;
     report_display := report_display self |}.

Definition set_athlete_display (rows : list row) (self : JudoManagementSystem) :=
  {| athletes := athletes self; name_field := name_field self; plan_var := plan_var self;
     weight_field := weight_field self; competitions_field := competitions_field self;
     coaching_field := coaching_field self; athlete_display := rows;
     athlete_selector := athlete_selector self;
     selected_athlete_var := selected_athlete_var self;
     report_display := report_display self |}.

Definition set_athlete_selector (values : list string) (selected : string)
    (self : JudoManagementSystem) :=
  {| athletes := athletes self; name_field := name_field self; plan_var := plan_var self;
     weight_field := weight_field self; competitions_field := competitions_field self;
     coaching_field := coaching_field self; athlete_display := athlete_display self;
     athlete_selector := values;
     selected_athlete_var := selected;
     report_display := report_display self |}.

Definition set_report_display (blocks : list report_block) (self : JudoManagementSystem) :=
  {| athletes := athletes self; name_field := name_field self; plan_var := plan_var self;
     weight_field := weight_field self; competitions_field := competitions_field self;
     coaching_field := coaching_field self; athlete_display := athlete_display self;
     athlete_selector := athlete_selector self;
     selected_athlete_var := selected_athlete_var self;
     report_display := blocks |}.

(** A callback runs on the object: it returns a value or raises, and leaves
    the object as it was at that point. *)
Definition M (A : Type) : Type := JudoManagementSystem -> result A * JudoManagementSystem.

Definition ret {A : Type} (a : A) : M A := fun self => (Ok a, self).

Definition lift {A : Type} (r : result A) : M A := fun self => (r, self).

Definition bindM {A B : Type} (c : M A) (k : A -> M B) : M B :=
  fun self =>
    match c self with
    | (Ok a, self') => k a self'
    | (Raise e, self') => (Raise e, self')
    end.

Definition get : M JudoManagementSystem := fun self => (Ok self, self).

Definition modify (f : JudoManagementSystem -> JudoManagementSystem) : M unit :=
  fun self => (Ok tt, f self).

Declare Scope gui_scope.
Delimit Scope gui_scope with gui.
Notation "x <- c ;; k" := (bindM c (fun x => k))
  (at level 61, c at next level, right associativity) : gui_scope.
Notation "c ;; k" := (bindM c (fun _ => k))
  (at level 61, right associativity) : gui_scope.

(** The message boxes a callback opens. *)
Inductive dialog : Type :=
| showinfo (title message : string)
| showwarning (title message : string)
| showerror (title message : string).

(** ** The callbacks *)

Section Application.
Import PyFloat.

(** [float(value)] for a string: [None] where Python raises
    [ValueError("could not convert string to float: ...")]. *)
Variable py_float : string -> option float.

(** [try: num_val = float(value) ...]: the outcome of the body of the
    [try] block.  The call sites pass integer bounds; [max_val = None] is
    the default [float('inf')]. *)
Definition validate_number_input_body (value field_name : string)
    (min_val : Z) (max_val : option Z) : result float :=
  match py_float value with
  | None => Raise (ValueError ("could not convert string to float: " ++ PyStr.repr value))
  | Some num_val =>
      if (num_val <? float_of_int min_val)%float
      then Raise (ValueError (field_name ++ " must be at least " ++ PyStr.of_int min_val))
      else
        match max_val with
        | Some max_val =>
            if (float_of_int max_val <? num_val)%float
            then Raise (ValueError (field_name ++ " cannot exceed " ++ PyStr.of_int max_val))
            else Ok num_val
        | None =>
            if (infinity <? num_val)%float
            then Raise (ValueError (field_name ++ " cannot exceed inf"))
            else Ok num_val
        end
  end.

(** The [except ValueError] clause rewrites the message of a failed
    conversion and raises every other [ValueError] again. *)
Definition validate_number_input (value field_name : string)
    (min_val : Z) (max_val : option Z) : result float :=
  match validate_number_input_body value field_name min_val max_val with
  | Raise (ValueError msg) =>
      if PyStr.contains "could not convert" msg
      then Raise (ValueError (field_name ++ " must be a valid number"))
      else Raise (ValueError msg)
  | other => other
  end.

Local Open Scope gui_scope.

(** [x / n] for a float and an integer. *)
Definition py_truediv (x : float) (n : Z) : result float :=
  if n =? 0 then Raise ZeroDivisionError else Ok (x / float_of_int n)%float.

Definition clear_registration_form : M unit :=
  modify (set_form "" "Beginner" "" "0" "0").

(** The second loop of [refresh_athlete_display]: one line per athlete. *)
Fixpoint insert_rows (l : list Athlete.t) : M unit :=
  match l with
  | [] => ret tt
  | athlete :: rest =>
      fees <- lift (Athlete.calculate_monthly_fees athlete) ;;
      modify (fun self =>
        set_athlete_display
          (athlete_display self
           ++ [ {| row_name := Athlete.name athlete;
                   row_plan := Athlete.training_plan athlete;
                   row_weight := Athlete.current_weight athlete;
                   row_category := Athlete.weight_category athlete;
                   row_competitions := Athlete.competitions athlete;
                   row_coaching := Athlete.private_coaching_hours athlete;
                   row_fee := Athlete.total_cost fees |} ])%list self) ;;
      insert_rows rest
  end.

Definition refresh_athlete_display : M unit :=
  modify (set_athlete_display []) ;;
  self <- get ;;
  insert_rows (athletes self).

Definition update_athlete_selector : M unit :=
  modify (fun self =>
    let athlete_names := map Athlete.name (athletes self) in
    match athlete_names with
    | first :: _ => set_athlete_selector athlete_names first self
    | [] => set_athlete_selector athlete_names "" self
    end).

Definition on_plan_change : M unit :=
  self <- get ;;
  if (plan_var self =? "Beginner")%string
  then modify (fun self =>
         set_form (name_field self) (plan_var self) (weight_field self) "0"
                  (coaching_field self) self)
  else ret tt.

(** The body of the [try] block of [register_athlete]. *)
Definition register_athlete_body : M dialog :=
  self <- get ;;
  let name := PyStr.strip (name_field self) in
  if (name =? "")%string
  then lift (Raise (ValueError "Please enter the athlete's name"))
  else if existsb (fun athlete =>
                     (PyStr.lower (Athlete.name athlete) =? PyStr.lower name)%string)
                  (athletes self)
  then lift (Raise (ValueError "An athlete with this name is already registered"))
  else
    let training_plan := plan_var self in
    weight <- lift (validate_number_input (weight_field self) "Weight" 30 (Some 200)) ;;
    competitions <- lift (bind (validate_number_input (competitions_field self)
                                  "Competitions" 0 (Some 4)) py_int) ;;
    coaching_hours <- lift (bind (validate_number_input (coaching_field self)
                                    "Private coaching hours" 0
                                    (Some TrainingConfig.MAX_PRIVATE_COACHING_HOURS))
                                 py_int) ;;
    athlete <- lift (Athlete.__init__ name training_plan weight competitions coaching_hours) ;;
    modify (fun self => set_athletes (athletes self ++ [athlete])%list self) ;;
    refresh_athlete_display ;;
    update_athlete_selector ;;
    clear_registration_form ;;
    ret (showinfo "Registration Complete"
                  (Athlete.name athlete ++ " has been successfully registered!")).

(** [register_athlete]: the body under its two [except] clauses.  The result
    is the message box shown. *)
Definition register_athlete : M dialog :=
  fun self =>
    match register_athlete_body self with
    | (Ok shown, self') => (Ok shown, self')
    | (Raise (ValueError msg), self') =>
        (Ok (showerror "Registration Error" msg), self')
    | (Raise e, self') =>
        (Ok (showerror "System Error" ("An unexpected error occurred: " ++ exn_str e)), self')
    end.

(** [remove_athlete]: [selection] is the table's current selection (positions
    of the selected lines), [answer] what the user answers to the
    confirmation box. *)
Definition remove_athlete (selection : list nat) (answer : bool) : M (list dialog) :=
  match selection with
  | [] => ret [showwarning "No Selection" "Please select an athlete to remove"]
  | item :: _ =>
      self <- get ;;
      values <- lift (match nth_error (athlete_display self) item with
                      | Some values => Ok values
                      | None => Raise (TclError "Item not found")
                      end) ;;
      let athlete_name := row_name values in
      if answer
      then
        modify (fun self =>
          set_athletes
            (filter (fun a => negb (Athlete.name a =? athlete_name)%string) (athletes self))
            self) ;;
        refresh_athlete_display ;;
        update_athlete_selector ;;
        ret [showinfo "Athlete Removed" (athlete_name ++ " has been removed from the system")]
      else ret []
  end.

Definition generate_individual_report : M (list dialog) :=
  self <- get ;;
  match athletes self with
  | [] => ret [showinfo "No Athletes" "Please register athletes before generating reports"]
  | _ :: _ =>
      let selected_name := selected_athlete_var self in
      if (selected_name =? "")%string
      then ret [showwarning "No Selection" "Please select an athlete for the report"]
      else
        match find (fun a => (Athlete.name a =? selected_name)%string) (athletes self) with
        | None => ret [showerror "Error" "Selected athlete not found"]
        | Some athlete =>
            report <- lift (generate_fee_report athlete) ;;
            modify (set_report_display [FeeReport report]) ;;
            ret []
        end
  end.

(** The first loop of [generate_summary_report]: the reports and the running
    revenue (which starts as the integer 0). *)
Fixpoint summary_loop (l : list Athlete.t) (all_reports : list report_block)
    (total_monthly_revenue : float) : result (list report_block * float) :=
  match l with
  | [] => Ok (all_reports, total_monthly_revenue)
  | athlete :: rest =>
      (report <- generate_fee_report athlete ;;
       fees <- Athlete.calculate_monthly_fees athlete ;;
       summary_loop rest (all_reports ++ [FeeReport report])%list
         (total_monthly_revenue + Athlete.total_cost fees)%float)%result
  end.

(** The second loop: [plan_counts]. *)
Definition count_plans (l : list Athlete.t) : list (string * Z) :=
  fold_left (fun plan_counts athlete =>
               dict_set plan_counts (Athlete.training_plan athlete)
                 (match dict_get plan_counts (Athlete.training_plan athlete) with
                  | Some count => count
                  | None => 0
                  end + 1))
            l [].

(** [generate_summary_report] after its guard: everything from
    [all_reports = ""] to the text handed to the report box. *)
Definition summarise (l : list Athlete.t) : result (list report_block) :=
  (looped <- summary_loop l [] (float_of_int 0) ;;
   let '(all_reports, total_monthly_revenue) := looped in
   average <- py_truediv total_monthly_revenue (Z.of_nat (List.length l)) ;;
   Ok (all_reports
       ++ [Summary {| summary_athletes := Z.of_nat (List.length l);
                      summary_revenue := total_monthly_revenue;
                      summary_average := average;
                      summary_plans := count_plans l |}])%list)%result.

Definition generate_summary_report : M (list dialog) :=
  self <- get ;;
  match athletes self with
  | [] => ret [showinfo "No Athletes" "Please register athletes before generating reports"]
  | _ :: _ =>
      all_reports <- lift (summarise (athletes self)) ;;
      modify (set_report_display all_reports) ;;
      ret []
  end.

Definition sample_data : list (string * string * float * Z * Z) :=
  [ ("James Mitchell", "Elite", 78.5%float, 3, 4);
    ("Sarah Chen", "Intermediate", 67.2%float, 2, 2);
    ("Robert Taylor", "Beginner", 85.1%float, 0, 1);
    ("Emma Rodriguez", "Elite", 72.8%float, 4, 5);
    ("Michael Johnson", "Intermediate", 81.5%float, 1, 0);
    ("Lisa Anderson", "Beginner", 69.3%float, 0, 0) ].

(** The loop of [load_initial_data]: a sample that fails validation is
    skipped. *)
Fixpoint load_samples (l : list (string * string * float * Z * Z)) : M unit :=
  match l with
  | [] => ret tt
  | (name, plan, weight, competitions, coaching) :: rest =>
      match Athlete.__init__ name plan weight competitions coaching with
      | Ok athlete => modify (fun self => set_athletes (athletes self ++ [athlete])%list self)
      | Raise (ValueError _) => ret tt
      | Raise e => lift (Raise e)
      end ;;
      load_samples rest
  end.

Definition load_initial_data : M unit :=
  load_samples sample_data ;;
  refresh_athlete_display ;;
  update_athlete_selector.

(** The object once [create_interface] has built the widgets: no athlete, the
    form at its defaults, empty table, selector and report box. *)
Definition created : JudoManagementSystem :=
  {| athletes := []; name_field := ""; plan_var := "Beginner"; weight_field := "";
     competitions_field := "0"; coaching_field := "0"; athlete_display := [];
     athlete_selector := []; selected_athlete_var := ""; report_display := [] |}.

(** [JudoManagementSystem(root)] *)
Definition JudoManagementSystem__init__ : result unit * JudoManagementSystem :=
  load_initial_data created.

(** *** The event loop *)

(** What the user can do between two callbacks. *)
Inductive action : Type :=
| TypeName (text : string)
| TypeWeight (text : string)
| TypeCompetitions (text : string)
| TypeCoaching (text : string)
| SelectPlan (plan : string)
| SelectAthlete (name : string)
| ClickRegister
| ClickClear
| ClickRefresh
| ClickRemove (selection : list nat) (answer : bool)
| ClickIndividualReport
| ClickSummary.

Definition perform (a : action) (self : JudoManagementSystem) : JudoManagementSystem :=
  match a with
  | TypeName text =>
      set_form text (plan_var self) (weight_field self) (competitions_field self)
               (coaching_field self) self
  | TypeWeight text =>
      set_form (name_field self) (plan_var self) text (competitions_field self)
               (coaching_field self) self
  | TypeCompetitions text =>
      set_form (name_field self) (plan_var self) (weight_field self) text
               (coaching_field self) self
  | TypeCoaching text =>
      set_form (name_field self) (plan_var self) (weight_field self)
               (competitions_field self) text self
  | SelectPlan plan =>
      snd (on_plan_change
             (set_form (name_field self) plan (weight_field self)
                       (competitions_field self) (coaching_field self) self))
  | SelectAthlete name =>
      set_athlete_selector (athlete_selector self) name self
  | ClickRegister => snd (register_athlete self)
  | ClickClear => snd (clear_registration_form self)
  | ClickRefresh => snd (refresh_athlete_display self)
  | ClickRemove selection answer => snd (remove_athlete selection answer self)
  | ClickIndividualReport => snd (generate_individual_report self)
  | ClickSummary => snd (generate_summary_report self)
  end.

(** The states the running application goes through. *)
Inductive reachable : JudoManagementSystem -> Prop :=
| reachable_init : reachable (snd JudoManagementSystem__init__)
| reachable_step (a : action) (self : JudoManagementSystem) :
    reachable self -> reachable (perform a self).

(** *** Two views used in the proofs *)

(** The steps of [register_athlete_body] that come before the list is
    touched, as a function of the object: the athlete to add, or the error. *)
Definition registration_attempt (self : JudoManagementSystem) : result Athlete.t :=
  let name := PyStr.strip (name_field self) in
  if (name =? "")%string
  then Raise (ValueError "Please enter the athlete's name")
  else if existsb (fun athlete =>
                     (PyStr.lower (Athlete.name athlete) =? PyStr.lower name)%string)
                  (athletes self)
  then Raise (ValueError "An athlete with this name is already registered")
  else
    (weight <- validate_number_input (weight_field self) "Weight" 30 (Some 200) ;;
     competitions <- bind (validate_number_input (competitions_field self)
                             "Competitions" 0 (Some 4)) py_int ;;
     coaching_hours <- bind (validate_number_input (coaching_field self)
                               "Private coaching hours" 0
                               (Some TrainingConfig.MAX_PRIVATE_COACHING_HOURS))
                            py_int ;;
     Athlete.__init__ name (plan_var self) weight competitions coaching_hours)%result.

(** The steps that follow a successful construction. *)
Definition registration_commit (athlete : Athlete.t) : M dialog :=
  modify (fun self => set_athletes (athletes self ++ [athlete])%list self) ;;
  refresh_athlete_display ;;
  update_athlete_selector ;;
  clear_registration_form ;;
  ret (showinfo "Registration Complete"
                (Athlete.name athlete ++ " has been successfully registered!")).

End Application.

(** ** Definitions used to state the properties *)

(** The validation rules in the order the specification lists them, each with
    the error construction reports when the rule is the first to fail. *)
Definition validation_checks (name plan : string) (w : float) (comps hours : Z)
  : list (bool * exn) :=
  [ (negb (PyStr.strip name =? "")%string,
     ValueError "Athlete name cannot be empty");
    (dict_mem TrainingConfig.TRAINING_PLANS plan,
     ValueError "Training plan must be one of: ['Beginner', 'Intermediate', 'Elite']");
    ((0 <? w)%float,
     ValueError "Weight must be greater than 0 kg");
    ((w <=? 200)%float,
     ValueError "Weight value seems unrealistic");
    (0 <=? comps,
     ValueError "Number of competitions cannot be negative");
    (negb ((plan =? "Beginner")%string && (0 <? comps)),
     ValueError "Beginner athletes cannot enter competitions");
    (comps <=? 4,
     ValueError "Maximum 4 competitions per month allowed");
    (0 <=? hours,
     ValueError "Private coaching hours cannot be negative");
    (hours <=? 5,
     ValueError "Maximum 5 hours of private coaching per week") ].

Definition first_failure (checks : list (bool * exn)) : option exn :=
  option_map snd (find (fun check => negb (fst check)) checks).

(** The limits of a category table increase strictly. *)
Fixpoint ascending (limits : list float) : bool :=
  match limits with
  | a :: (b :: _) as rest => (a <? b)%float && ascending rest
  | _ => true
  end.

(** A string with no white space at its start. *)
Definition clean (s : string) : Prop :=
  match s with
  | EmptyString => True
  | String c _ => PyStr.isspace c = false
  end.

(** The athlete's plan is one of the catalogue's. *)
Definition known_plan (a : Athlete.t) : Prop :=
  dict_mem TrainingConfig.TRAINING_PLANS (Athlete.training_plan a) = true.

(** Names as the duplicate check compares them. *)
Definition folded_names (l : list Athlete.t) : list string :=
  map (fun a => PyStr.lower (Athlete.name a)) l.

(** The line of the overview table that shows an athlete. *)
Definition shows (line : row) (a : Athlete.t) : Prop :=
  row_name line = Athlete.name a.

(** What holds of the object between two callbacks: every plan is known, no
    two names are equal up to case, and the table shows the list. *)
Definition consistent (self : JudoManagementSystem) : Prop :=
  Forall known_plan (athletes self)
  /\ NoDup (folded_names (athletes self))
  /\ Forall2 shows (athlete_display self) (athletes self).

(** The message box the two [except] clauses of [register_athlete] open. *)
Definition error_dialog (e : exn) : dialog :=
  match e with
  | ValueError msg => showerror "Registration Error" msg
  | _ => showerror "System Error" ("An unexpected error occurred: " ++ exn_str e)
  end.

Definition duplicate_name : exn :=
  ValueError "An athlete with this name is already registered".

(** A reader of the few decimal texts the examples type into the form: what
    [float] returns for them, and no number for any other text. *)
Definition reads (text : string) : option float :=
  if (text =? "25")%string then Some 25%float
  else if (text =? "70.0")%string then Some 70%float
  else if (text =? "0")%string then Some 0%float
  else if (text =? "2")%string then Some 2%float
  else if (text =? "nan")%string then Some nan
  else None.

(** The object when the window opens. *)
Definition initial : JudoManagementSystem := snd JudoManagementSystem__init__.

(** ** [format_currency] and the number format it uses *)

(** The integer nearest to [n * 2^e], ties to the even one. *)
Definition round_half_even (n e : Z) : Z :=
  match e with
  | Zneg k =>
      let d := 2 ^ Zpos k in
      let q := n / d in
      let r := n mod d in
      match 2 * r ?= d with
      | Lt => q
      | Gt => q + 1
      | Eq => if Z.even q then q else q + 1
      end
  | _ => n * 2 ^ e
  end.

(** [n] written with at least [width] digits. *)
Fixpoint zero_padded (width : nat) (n : Z) : string :=
  match width with
  | O => ""
  | S w => zero_padded w (n / 10) ++ PyStr.of_int (n mod 10)
  end.

(** A non-negative count [c] of units of [10^-digits], in fixed-point text. *)
Definition fixed_point (digits : nat) (c : Z) : string :=
  let unit := 10 ^ Z.of_nat digits in
  match digits with
  | O => PyStr.of_int c
  | _ => PyStr.of_int (c / unit) ++ "." ++ zero_padded digits (c mod unit)
  end.

(** [f"{x:.<digits>f}"] for a float: the exact value of the double, rounded
    to [digits] decimals, ties to even. *)
Definition format_f (digits : nat) (x : float) : string :=
  match Prim2SF x with
  | S754_nan => "nan"
  | S754_infinity s => if s then "-inf" else "inf"
  | S754_zero s => (if s then "-" else "") ++ fixed_point digits 0
  | S754_finite s m e =>
      (if s then "-" else "")
      ++ fixed_point digits (round_half_even (Zpos m * 10 ^ Z.of_nat digits) e)
  end.

(** The pound sign, U+00A3. *)
Definition pound : string := String (ascii_of_nat 163) EmptyString.

Definition format_currency (amount : float) : string :=
  pound ++ format_f 2 amount.

(** ** Definitions used to state the properties of the widgets *)

(** The athlete is the result of a construction. *)
Definition constructed (a : Athlete.t) : Prop :=
  exists name plan weight competitions hours,
    Athlete.__init__ name plan weight competitions hours = Ok a.

(** A line of the overview table holds the seven values
    [refresh_athlete_display] shows for the athlete. *)
Definition mirrors (line : row) (a : Athlete.t) : Prop :=
  exists fees,
    Athlete.calculate_monthly_fees a = Ok fees
    /\ line = {| row_name := Athlete.name a;
                 row_plan := Athlete.training_plan a;
                 row_weight := Athlete.current_weight a;
                 row_category := Athlete.weight_category a;
                 row_competitions := Athlete.competitions a;
                 row_coaching := Athlete.private_coaching_hours a;
                 row_fee := Athlete.total_cost fees |}.

(** The widgets follow the list: one line per athlete, in order, and the
    selector offers the names in order. *)
Definition in_step (self : JudoManagementSystem) : Prop :=
  Forall constructed (athletes self)
  /\ Forall2 mirrors (athlete_display self) (athletes self)
  /\ athlete_selector self = map Athlete.name (athletes self).

(** The samples that pass validation, constructed, in order. *)
Fixpoint accepted (l : list (string * string * float * Z * Z)) : list Athlete.t :=
  match l with
  | [] => []
  | (name, plan, weight, competitions, coaching) :: rest =>
      match Athlete.__init__ name plan weight competitions coaching with
      | Ok athlete => athlete :: accepted rest
      | Raise _ => accepted rest
      end
  end.

(** The number of athletes on a plan. *)
Definition on_plan (plan : string) (l : list Athlete.t) : Z :=
  Z.of_nat (List.length (filter (fun a => (Athlete.training_plan a =? plan)%string) l)).

(** The object after the list changed to [l] and the table and the selector
    were brought up to date. *)
Definition brought_up_to_date (l : list Athlete.t) (lines : list row)
    (self : JudoManagementSystem) : JudoManagementSystem :=
  set_athlete_selector (map Athlete.name l) (hd "" (map Athlete.name l))
    (set_athlete_display lines (set_athletes l self)).

(** The place of a number in the order [SFcompare] decides: the sign class
    first (infinities outermost), then the exponent, then the mantissa. *)
Definition place (x : spec_float) : option (Z * Z * Z) :=
  match x with
  | S754_nan => None
  | S754_zero _ => Some (0, 0, 0)
  | S754_infinity s => Some (if s then -2 else 2, 0, 0)
  | S754_finite s m e => if s then Some (-1, - e, - Zpos m) else Some (1, e, Zpos m)
  end.

Definition before (p q : Z * Z * Z) : Prop :=
  let '(a, b, c) := p in
  let '(a', b', c') := q in
  a < a' \/ (a = a' /\ (b < b' \/ (b = b' /\ c <= c'))).

(** [plan_counts.get(plan, 0)], one turn of the loop of [count_plans], and
    the sum of the counts. *)
Definition count_of (d : list (string * Z)) (plan : string) : Z :=
  match dict_get d plan with Some n => n | None => 0 end.

Definition count_step (plan_counts : list (string * Z)) (athlete : Athlete.t)
  : list (string * Z) :=
  dict_set plan_counts (Athlete.training_plan athlete)
    (count_of plan_counts (Athlete.training_plan athlete) + 1).

Fixpoint total_count (d : list (string * Z)) : Z :=
  match d with
  | [] => 0
  | (_, n) :: rest => n + total_count rest
  end.

(** The Fee column of the table, added up from the top, starting at [start]. *)
Definition fee_column_total (lines : list row) (start : float) : float :=
  fold_left (fun total line => (total + row_fee line)%float) lines start.

(** The messages [register_athlete] can put in an error box. *)
Definition registration_messages : list string :=
  [ "Please enter the athlete's name";
    "An athlete with this name is already registered";
    "Weight must be a valid number";
    "Weight must be at least 30";
    "Weight cannot exceed 200";
    "Competitions must be a valid number";
    "Competitions must be at least 0";
    "Competitions cannot exceed 4";
    "Private coaching hours must be a valid number";
    "Private coaching hours must be at least 0";
    "Private coaching hours cannot exceed 5";
    "cannot convert float NaN to integer";
    "Training plan must be one of: ['Beginner', 'Intermediate', 'Elite']";
    "Beginner athletes cannot enter competitions" ].

(** ** Values used in the instances *)

(** What [Athlete(" Ann ", "Elite", 70, 2, 1)] returns, and its fees. *)
Definition ann : Athlete.t :=
  {| Athlete.name := "Ann"; Athlete.training_plan := "Elite";
     Athlete.current_weight := 70; Athlete.competitions := 2;
     Athlete.private_coaching_hours := 1; Athlete.weight_category := "Lightweight" |}.

Definition ann_fees : Athlete.fees :=
  {| Athlete.training_cost := 140; Athlete.coaching_cost := 38;
     Athlete.competition_cost := 44; Athlete.total_cost := 222 |}.

(** The first of the samples, and its line in the table. *)
Definition james : Athlete.t :=
  {| Athlete.name := "James Mitchell"; Athlete.training_plan := "Elite";
     Athlete.current_weight := 78.5; Athlete.competitions := 3;
     Athlete.private_coaching_hours := 4;
     Athlete.weight_category := "Light-Middleweight" |}.

Definition first_line : row :=
  {| row_name := "James Mitchell"; row_plan := "Elite"; row_weight := 78.5;
     row_category := "Light-Middleweight"; row_competitions := 3; row_coaching := 4;
     row_fee := 358 |}.

(** The window after "Tom" and "70.0" were typed into the name and weight
    fields. *)
Definition tom_typed : JudoManagementSystem :=
  perform reads (TypeWeight "70.0") (perform reads (TypeName "Tom") initial).

(** * Properties *)

(** ** Facts about binary floating-point numbers *)

Section SpecFloatFacts.
Variables prec emax : Z.

Lemma SFcompare_swap (x y : spec_float) :
  SFcompare y x = option_map CompOpp (SFcompare x y).
Proof.
  destruct x as [sx|sx| |sx mx ex], y as [sy|sy| |sy my ey]; simpl;
    try reflexivity; try (destruct sx; reflexivity); try (destruct sy; reflexivity);
    try (destruct sx, sy; reflexivity).
  f_equal. destruct sx, sy; try reflexivity;
    rewrite (Z.compare_antisym ex ey); destruct (ex ?= ey); simpl; try reflexivity;
    rewrite (Pos.compare_cont_antisym mx my Eq); simpl;
    rewrite ?CompOpp_involutive; reflexivity.
Qed.

Lemma iter_pos_invariant {A : Type} (P : A -> Prop) (f : A -> A) :
  (forall a, P a -> P (f a)) -> forall p a, P a -> P (iter_pos f p a).
Proof.
  intros step p. induction p as [p IH|p IH|]; intros a Ha; simpl; auto.
Qed.

Lemma shr_1_nonneg (mrs : shr_record) : 0 <= shr_m mrs -> 0 <= shr_m (shr_1 mrs).
Proof.
  destruct mrs as [m r s]. simpl. intros Hm.
  destruct m as [|p|p]; [simpl; lia| |lia].
  destruct p; simpl; lia.
Qed.

Lemma shr_fexp_nonneg (m e : Z) (l : location) :
  0 <= m -> 0 <= shr_m (fst (shr_fexp prec emax m e l)).
Proof.
  intros Hm. unfold shr_fexp, shr.
  assert (H0 : 0 <= shr_m (shr_record_of_loc m l)) by (destruct l as [|[| |]]; exact Hm).
  destruct (fexp prec emax (Zdigits2 m + e) - e) as [|p|p]; simpl; auto.
  apply iter_pos_invariant; [exact shr_1_nonneg | exact H0].
Qed.

Lemma round_nearest_even_nonneg (m : Z) (l : location) :
  0 <= m -> 0 <= round_nearest_even m l.
Proof.
  intros Hm. destruct l as [|[| |]]; simpl; try lia. destruct (Z.even m); lia.
Qed.

(** Rounding a non-negative integer gives a number that is not below zero. *)
Lemma binary_round_aux_nonneg (m e : Z) (l : location) :
  0 <= m -> SFleb (S754_zero false) (binary_round_aux prec emax false m e l) = true.
Proof.
  intros Hm. unfold binary_round_aux.
  pose proof (shr_fexp_nonneg m e l Hm) as H1.
  destruct (shr_fexp prec emax m e l) as [mrs' e'] eqn:E1. simpl in H1.
  pose proof (shr_fexp_nonneg _ e' loc_Exact
                (round_nearest_even_nonneg _ (loc_of_shr_record mrs') H1)) as H2.
  destruct (shr_fexp prec emax _ e' loc_Exact) as [mrs'' e''] eqn:E2. simpl in H2.
  destruct (shr_m mrs'') as [|p|p]; [reflexivity| |lia].
  destruct (e'' <=? emax - prec); reflexivity.
Qed.

Lemma binary_normalize_nonneg (m e : Z) :
  0 <= m -> SFleb (S754_zero false) (binary_normalize prec emax m e false) = true.
Proof.
  intros Hm. destruct m as [|p|p]; [reflexivity| |lia].
  unfold binary_normalize, binary_round.
  destruct (shl_align p e _) as [mz ez]. apply binary_round_aux_nonneg. lia.
Qed.

Lemma digits2_pos_size (m : positive) : digits2_pos m = Pos.size m.
Proof. induction m; simpl; congruence. Qed.

Lemma iter_xO (m d : positive) : Zpos (Pos.iter xO m d) = Zpos m * 2 ^ Zpos d.
Proof.
  induction d as [|d IH] using Pos.peano_ind.
  - simpl. lia.
  - rewrite Pos.iter_succ, Pos2Z.inj_xO, IH, Pos2Z.inj_succ, Z.pow_succ_r by lia. ring.
Qed.

Lemma shl_align_same (m : positive) (e : Z) : shl_align m e e = (m, e).
Proof. unfold shl_align. now rewrite Z.sub_diag. Qed.

Lemma shl_align_lower (m : positive) (e e' : Z) :
  e' < e -> Zpos (fst (shl_align m e e')) = Zpos m * 2 ^ (e - e').
Proof.
  intros H. unfold shl_align. destruct (e' - e) as [|d|d] eqn:E; try lia.
  simpl. rewrite iter_xO. replace (e - e') with (Zpos d) by lia. reflexivity.
Qed.

Hypothesis prec_pos : 0 < prec.

Lemma bounded_digits (m : positive) (e : Z) :
  bounded prec emax m e = true ->
  Zpos (digits2_pos m) <= prec /\ SpecFloat.emin prec emax <= e /\
  (SpecFloat.emin prec emax < e -> Zpos (digits2_pos m) = prec).
Proof.
  unfold bounded, canonical_mantissa, fexp. intros H.
  apply andb_true_iff in H. destruct H as [H _]. apply Z.eqb_eq in H. lia.
Qed.

Lemma digits_bounds (m : positive) :
  2 ^ (Zpos (digits2_pos m) - 1) <= Zpos m < 2 ^ Zpos (digits2_pos m).
Proof.
  rewrite digits2_pos_size. split.
  - pose proof (Pos.size_le m) as H.
    assert (H' : 2 ^ Zpos (Pos.size m) <= 2 * Zpos m).
    { change (2 * Zpos m) with (Zpos m~0). rewrite <- Pos2Z.inj_pow. lia. }
    replace (Zpos (Pos.size m)) with (Z.succ (Zpos (Pos.size m) - 1)) in H' by lia.
    rewrite Z.pow_succ_r in H' by lia. lia.
  - pose proof (Pos.size_gt m) as H. rewrite <- Pos2Z.inj_pow. lia.
Qed.

(** Subtracting a number from a positive finite number that is not below it
    never gives a negative number. *)
Lemma SFsub_nonneg (mx : positive) (ex : Z) (y : spec_float) :
  bounded prec emax mx ex = true -> SpecFloat.valid_binary prec emax y = true ->
  SFleb y (S754_finite false mx ex) = true ->
  SFleb (S754_zero false) (SFsub prec emax (S754_finite false mx ex) y) = true.
Proof.
  intros Bx By Hle. destruct y as [sy|sy| |sy my ey].
  - reflexivity.
  - destruct sy; [reflexivity | discriminate].
  - discriminate.
  - unfold SFsub. apply binary_normalize_nonneg. unfold cond_Zopp.
    destruct sy; [lia|].
    unfold SFleb in Hle. simpl in Hle, By.
    apply bounded_digits in Bx, By.
    destruct (Z.compare_spec ey ex) as [E|L|G]; try discriminate.
    + subst ey. rewrite Z.min_id, !shl_align_same. cbn [fst].
      rewrite Pos.compare_cont_spec in Hle.
      destruct (Pos.compare_spec my mx); simpl in Hle; try discriminate; lia.
    + rewrite Z.min_r by lia. rewrite shl_align_same. cbn [fst].
      rewrite shl_align_lower by lia.
      destruct Bx as (Dx & _ & Nx). destruct By as (Dy & Ey & _).
      pose proof (digits_bounds mx) as Mx. pose proof (digits_bounds my) as My.
      rewrite (Nx ltac:(lia)) in Mx.
      assert (Hy : Zpos my < 2 ^ prec).
      { eapply Z.lt_le_trans; [apply My|]. apply Z.pow_le_mono_r; lia. }
      assert (Hp : 2 ^ 1 <= 2 ^ (ex - ey)) by (apply Z.pow_le_mono_r; lia).
      assert (Hx : 2 ^ prec = 2 ^ (prec - 1) * 2).
      { replace prec with (Z.succ (prec - 1)) at 1 by lia. rewrite Z.pow_succ_r by lia. ring. }
      nia.
Qed.

End SpecFloatFacts.

(** ** Facts about doubles *)

Lemma Prim2SF_bounded (x : float) (s : bool) (m : positive) (e : Z) :
  Prim2SF x = S754_finite s m e -> bounded prec emax m e = true.
Proof. intros H. pose proof (Prim2SF_valid x) as V. rewrite H in V. exact V. Qed.

Lemma leb_not_ltb (x y : float) : (x <=? y)%float = true -> (y <? x)%float = false.
Proof.
  rewrite leb_spec, ltb_spec. unfold SFleb, SFltb.
  rewrite (SFcompare_swap (Prim2SF x) (Prim2SF y)).
  destruct (SFcompare (Prim2SF x) (Prim2SF y)) as [[| |]|]; simpl; congruence.
Qed.

Lemma ltb_leb (x y : float) : (x <? y)%float = true -> (x <=? y)%float = true.
Proof.
  rewrite leb_spec, ltb_spec. unfold SFleb, SFltb.
  destruct (SFcompare (Prim2SF x) (Prim2SF y)) as [[| |]|]; congruence.
Qed.

Lemma eqb_not_ltb (x y : float) : (x =? y)%float = true -> (y <? x)%float = false.
Proof.
  rewrite eqb_spec, ltb_spec. unfold SFeqb, SFltb.
  rewrite (SFcompare_swap (Prim2SF x) (Prim2SF y)).
  destruct (SFcompare (Prim2SF x) (Prim2SF y)) as [[| |]|]; simpl; congruence.
Qed.

Lemma leb_not_ltb_eqb (x y : float) :
  (x <=? y)%float = true -> (x <? y)%float = false -> (y =? x)%float = true.
Proof.
  rewrite leb_spec, ltb_spec, eqb_spec. unfold SFleb, SFltb, SFeqb.
  rewrite (SFcompare_swap (Prim2SF x) (Prim2SF y)).
  destruct (SFcompare (Prim2SF x) (Prim2SF y)) as [[| |]|]; simpl; congruence.
Qed.

(** A number equal to zero is below every positive number. *)
Lemma eqb_zero_ltb (x y : float) :
  (x =? 0)%float = true -> (0 <? y)%float = true -> (y <? x)%float = false.
Proof.
  rewrite eqb_spec, !ltb_spec. unfold SFeqb, SFltb.
  change (Prim2SF 0) with (S754_zero false).
  destruct (Prim2SF x) as [sx|sx| |sx mx ex], (Prim2SF y) as [sy|sy| |sy my ey];
    simpl; try congruence; try (destruct sx; congruence); try (destruct sy; congruence).
Qed.

(** Every number is at most [inf]; only NaN is not. *)
Lemma leb_infinity (x y : float) : (x <? y)%float = true -> (y <=? infinity)%float = true.
Proof.
  rewrite ltb_spec, leb_spec. unfold SFltb, SFleb.
  change (Prim2SF infinity) with (S754_infinity false).
  destruct (Prim2SF x) as [sx|sx| |sx mx ex], (Prim2SF y) as [sy|sy| |sy my ey];
    simpl; try congruence; destruct sy; congruence.
Qed.

Lemma sub_nonneg (x y : float) (mx : positive) (ex : Z) :
  Prim2SF x = S754_finite false mx ex ->
  (y <=? x)%float = true -> (0 <=? x - y)%float = true.
Proof.
  intros Hx Hle. rewrite leb_spec in *. rewrite sub_spec. rewrite Hx in *.
  change (Prim2SF 0) with (S754_zero false).
  apply SFsub_nonneg.
  - reflexivity.
  - exact (Prim2SF_bounded x false mx ex Hx).
  - apply Prim2SF_valid.
  - exact Hle.
Qed.

(** ** The athlete record *)

Import Athlete TrainingConfig PyFloat.

(** What the loop of [_determine_weight_category] returns: the category at
    the first position of the table whose limit the weight does not exceed. *)
Lemma first_category_split (items : list (string * float)) (w : float) (category : string) :
  first_category items w = Some category <->
  exists before limit after,
    items = (before ++ (category, limit) :: after)%list /\
    (w <=? limit)%float = true /\
    (forall c l, In (c, l) before -> (w <=? l)%float = false).
Proof.
  induction items as [|[c l] rest IH]; simpl.
  - split; [discriminate|]. intros (before & limit & after & E & _).
    destruct before; discriminate.
  - destruct (w <=? l)%float eqn:Hl.
    + split.
      * intros E. inversion E; subst. exists [], l, rest. repeat split; auto. intros ? ? [].
      * intros (before & limit & after & E & Hle & Hb).
        destruct before as [|[c' l'] before]; simpl in E; inversion E; subst.
        -- reflexivity.
        -- rewrite (Hb c' l') in Hl by (left; reflexivity). discriminate.
    + rewrite IH. split.
      * intros (before & limit & after & E & Hle & Hb). subst rest.
        exists ((c, l) :: before), limit, after. repeat split; auto.
        intros c' l' [Heq|Hin]; [inversion Heq; subst; assumption | eauto].
      * intros (before & limit & after & E & Hle & Hb).
        destruct before as [|[c' l'] before]; simpl in E; inversion E; subst.
        -- congruence.
        -- exists before, limit, after.
           repeat split; auto. intros c0 l0 Hin. apply (Hb c0 l0). right. exact Hin.
Qed.

(** C3. For a weight [w] with [0 < w <= 200] the loop of
    [_determine_weight_category] returns from inside (it does not reach the
    fall-through [return]), and the category it gives is the one category that
    stands first in the table among those whose limit is at least [w]; the
    limits of the table increase strictly and end with infinity.  The four
    boundary weights 66.0, 66.1, 100.0 and 100.1 fall in Flyweight,
    Lightweight, Light-Heavyweight and Heavyweight. *)
Theorem C3_weight_category_lookup (w : float) :
  (0 <? w)%float = true -> (w <=? 200)%float = true ->
  exists category,
    first_category WEIGHT_CATEGORIES w = Some category /\
    _determine_weight_category w = category /\
    (exists before limit after,
       WEIGHT_CATEGORIES = (before ++ (category, limit) :: after)%list /\
       (w <=? limit)%float = true /\
       (forall c l, In (c, l) before -> (w <=? l)%float = false)) /\
    (forall before c limit after,
       WEIGHT_CATEGORIES = (before ++ (c, limit) :: after)%list ->
       (w <=? limit)%float = true ->
       (forall c' l, In (c', l) before -> (w <=? l)%float = false) ->
       c = category) /\
    ascending (map snd WEIGHT_CATEGORIES) = true /\
    last (map snd WEIGHT_CATEGORIES) 0%float = infinity /\
    _determine_weight_category 66.0 = "Flyweight" /\
    _determine_weight_category 66.1 = "Lightweight" /\
    _determine_weight_category 100.0 = "Light-Heavyweight" /\
    _determine_weight_category 100.1 = "Heavyweight".
Proof.
  intros Hpos _.
  destruct (first_category WEIGHT_CATEGORIES w) as [category|] eqn:E.
  - exists category. split; [reflexivity|]. split; [unfold _determine_weight_category; now rewrite E|].
    split; [now apply first_category_split|]. split; [|repeat split; reflexivity].
    intros before c limit after Hs Hle Hb.
    assert (E' : first_category WEIGHT_CATEGORIES w = Some c).
    { apply first_category_split. exists before, limit, after. auto. }
    congruence.
  - exfalso. pose proof (leb_infinity 0 w Hpos) as Hinf.
    unfold WEIGHT_CATEGORIES in E. simpl in E. rewrite Hinf in E.
    repeat match type of E with
           | (if ?b then _ else _) = None => destruct b; try discriminate
           end.
Qed.

(** Unfolding a successful construction. *)
Lemma init_ok (name plan : string) (w : float) (comps hours : Z) (r : Athlete.t) :
  Athlete.__init__ name plan w comps hours = Ok r ->
  PyStr.strip name <> "" /\
  dict_mem TRAINING_PLANS plan = true /\
  (w <=? 0)%float = false /\ (200 <? w)%float = false /\
  0 <= comps <= 4 /\ (plan = "Beginner" -> comps = 0) /\
  0 <= hours <= 5 /\
  r = {| name := PyStr.strip name; training_plan := plan; current_weight := w;
         competitions := comps; private_coaching_hours := hours;
         weight_category := _determine_weight_category w |}.
Proof.
  unfold Athlete.__init__, _validate_name, _validate_training_plan, _validate_weight,
    _validate_competitions, _validate_coaching_hours, MAX_PRIVATE_COACHING_HOURS.
  destruct (PyStr.strip name =? "")%string eqn:Hn; [discriminate|].
  destruct (dict_mem TRAINING_PLANS plan) eqn:Hp; [|discriminate].
  destruct (w <=? 0)%float eqn:Hw0; [discriminate|].
  destruct (200 <? w)%float eqn:Hw1; [discriminate|].
  destruct (comps <? 0) eqn:Hc0; [discriminate|].
  destruct ((plan =? "Beginner")%string && (comps >? 0)) eqn:Hb; [discriminate|].
  destruct (comps >? 4) eqn:Hc1; [discriminate|].
  destruct (hours <? 0) eqn:Hh0; [discriminate|].
  destruct (hours >? 5) eqn:Hh1; [discriminate|].
  simpl. intros E. inversion E; subst; clear E.
  apply String.eqb_neq in Hn.
  repeat split; auto; try lia.
  intros ->. simpl in Hb. lia.
Qed.

(** The three sentences below the top category, for a limit the weight does
    not exceed. *)
Lemma analysis_below_limit (r : Athlete.t) (limit : float) (mx : positive) (ex : Z) :
  dict_get WEIGHT_CATEGORIES (weight_category r) = Some limit ->
  weight_category r <> "Heavyweight" ->
  Prim2SF limit = S754_finite false mx ex ->
  (current_weight r <=? limit)%float = true ->
  let margin := (limit - current_weight r)%float in
  (0 <=? margin)%float = true /\
  ((5 <? margin)%float = true ->
   get_weight_analysis r = Ok (WellWithin (current_weight r) (weight_category r) limit)) /\
  ((0 <? margin)%float = true -> (margin <=? 5)%float = true ->
   get_weight_analysis r = Ok (CloseTo (current_weight r) (weight_category r) limit)) /\
  ((margin =? 0)%float = true ->
   get_weight_analysis r = Ok (Over (current_weight r) (weight_category r) limit)) /\
  (get_weight_analysis r = Ok (Over (current_weight r) (weight_category r) limit) ->
   (margin =? 0)%float = true).
Proof.
  intros Hget Hcat Hl Hle margin.
  pose proof (sub_nonneg limit (current_weight r) mx ex Hl Hle) as Hm. fold margin in Hm.
  unfold get_weight_analysis, dict_getitem. rewrite Hget. cbn [bind].
  apply String.eqb_neq in Hcat. rewrite Hcat. fold margin.
  split; [exact Hm|]. split; [|split; [|split]].
  - intros ->. reflexivity.
  - intros H0 H5. rewrite (leb_not_ltb _ _ H5), H0. reflexivity.
  - intros Hz. rewrite (eqb_zero_ltb margin 5 Hz eq_refl), (eqb_not_ltb _ _ Hz). reflexivity.
  - destruct (5 <? margin)%float; [discriminate|].
    destruct (0 <? margin)%float eqn:H0; [discriminate|].
    intros _. apply leb_not_ltb_eqb; assumption.
Qed.

Local Ltac found_limit :=
  do 2 eexists; split; [reflexivity | split; [vm_compute; reflexivity | assumption]].

(** C6. For a constructed record: in the Heavyweight category the analysis
    is the "no upper limit" sentence; in any other category the limit of the
    category is found, the margin [limit - weight] is never negative, a margin
    above 5 gives "Well within", a positive margin of at most 5 gives "Close
    to", and a margin of zero gives the "Over" sentence, which is given for no
    other margin (there is no sentence of its own for a weight at the
    limit). *)
Theorem C6_weight_analysis (name plan : string) (w : float) (comps hours : Z) (r : Athlete.t) :
  Athlete.__init__ name plan w comps hours = Ok r ->
  (weight_category r = "Heavyweight" ->
   get_weight_analysis r = Ok (NoUpperLimit (current_weight r))) /\
  (weight_category r <> "Heavyweight" ->
   exists limit,
     dict_get WEIGHT_CATEGORIES (weight_category r) = Some limit /\
     let margin := (limit - current_weight r)%float in
     (0 <=? margin)%float = true /\
     ((5 <? margin)%float = true ->
      get_weight_analysis r = Ok (WellWithin (current_weight r) (weight_category r) limit)) /\
     ((0 <? margin)%float = true -> (margin <=? 5)%float = true ->
      get_weight_analysis r = Ok (CloseTo (current_weight r) (weight_category r) limit)) /\
     ((margin =? 0)%float = true ->
      get_weight_analysis r = Ok (Over (current_weight r) (weight_category r) limit)) /\
     (get_weight_analysis r = Ok (Over (current_weight r) (weight_category r) limit) ->
      (margin =? 0)%float = true)).
Proof.
  intros Hinit. apply init_ok in Hinit.
  destruct Hinit as (_ & _ & _ & _ & _ & _ & _ & ->).
  split.
  - cbn [weight_category current_weight]. intros Hc.
    unfold get_weight_analysis. cbn [weight_category current_weight]. rewrite Hc. reflexivity.
  - cbn [weight_category]. intros Hc.
    set (r := {| name := PyStr.strip name; training_plan := plan; current_weight := w;
                 competitions := comps; private_coaching_hours := hours;
                 weight_category := _determine_weight_category w |}).
    assert (Hsplit : exists limit mx ex,
      dict_get WEIGHT_CATEGORIES (_determine_weight_category w) = Some limit /\
      Prim2SF limit = S754_finite false mx ex /\ (w <=? limit)%float = true).
    { revert Hc. unfold _determine_weight_category, WEIGHT_CATEGORIES, first_category.
      destruct (w <=? 66)%float eqn:H66; [intros _; exists 66%float; found_limit|].
      destruct (w <=? 73)%float eqn:H73; [intros _; exists 73%float; found_limit|].
      destruct (w <=? 81)%float eqn:H81; [intros _; exists 81%float; found_limit|].
      destruct (w <=? 90)%float eqn:H90; [intros _; exists 90%float; found_limit|].
      destruct (w <=? 100)%float eqn:H100; [intros _; exists 100%float; found_limit|].
      destruct (w <=? infinity)%float; intros Hc; exfalso; apply Hc; reflexivity. }
    destruct Hsplit as (limit & mx & ex & Hget & Hl & Hle).
    exists limit. split; [exact Hget|].
    exact (analysis_below_limit r limit mx ex Hget Hc Hl Hle).
Qed.

Lemma dict_mem_plans (plan : string) :
  dict_mem TRAINING_PLANS plan = true ->
  plan = "Beginner" \/ plan = "Intermediate" \/ plan = "Elite".
Proof.
  unfold dict_mem, TRAINING_PLANS, dict_get.
  destruct ("Beginner" =? plan)%string eqn:B; [apply String.eqb_eq in B; auto|].
  destruct ("Intermediate" =? plan)%string eqn:I; [apply String.eqb_eq in I; auto|].
  destruct ("Elite" =? plan)%string eqn:E; [apply String.eqb_eq in E; auto|].
  discriminate.
Qed.

Local Ltac exact_value := eexists; split; [vm_compute; reflexivity | vm_compute; reflexivity].

(** C1. For a constructed record the fee calculation returns (it raises
    nothing), and its four amounts are exact: the training cost is the weekly
    fee of the plan times 4, the coaching cost the weekly hours times 4 times
    9.50, the competition cost the number of competitions times 22, and the
    total their sum, with no rounding anywhere.  The Intermediate athlete
    with 2 competitions and 3 hours pays 120 + 114 + 44 = 278, the Beginner
    with neither pays 100 in all. *)
Theorem C1_monthly_fees (name plan : string) (w : float) (comps hours : Z) (r : Athlete.t) :
  Athlete.__init__ name plan w comps hours = Ok r ->
  (exists (p : TrainingConfig.plan) (f : fees) (fee : Q),
     dict_get TRAINING_PLANS (training_plan r) = Some p /\
     calculate_monthly_fees r = Ok f /\
     exactly (weekly_fee p) fee /\
     exactly (training_cost f) (fee * 4) /\
     exactly (coaching_cost f) (inject_Z (private_coaching_hours r) * 4 * (950 # 100)) /\
     exactly (competition_cost f) (inject_Z (competitions r) * 22) /\
     exactly (total_cost f)
       (fee * 4 + inject_Z (private_coaching_hours r) * 4 * (950 # 100)
        + inject_Z (competitions r) * 22) /\
     total_cost f = (training_cost f + coaching_cost f + competition_cost f)%float) /\
  bind (Athlete.__init__ "J" "Intermediate" 75.0 2 3) calculate_monthly_fees
  = Ok {| training_cost := 120.00; coaching_cost := 114.00;
          competition_cost := 44.00; total_cost := 278.00 |} /\
  bind (Athlete.__init__ "B" "Beginner" 75.0 0 0) calculate_monthly_fees
  = Ok {| training_cost := 100.00; coaching_cost := 0;
          competition_cost := 0; total_cost := 100.00 |}.
Proof.
  intros Hinit. split; [|split; reflexivity].
  apply init_ok in Hinit.
  destruct Hinit as (_ & Hplan & _ & _ & Hc & _ & Hh & ->).
  cbn [training_plan private_coaching_hours competitions].
  apply dict_mem_plans in Hplan.
  assert (Hcs : comps = 0 \/ comps = 1 \/ comps = 2 \/ comps = 3 \/ comps = 4) by lia.
  assert (Hhs : hours = 0 \/ hours = 1 \/ hours = 2 \/ hours = 3 \/ hours = 4 \/ hours = 5) by lia.
  clear Hc Hh.
  destruct Hplan as [ -> | [ -> | -> ] ];
    [ exists {| sessions_per_week := 2; weekly_fee := 25 |}; eexists; exists 25%Q
    | exists {| sessions_per_week := 3; weekly_fee := 30 |}; eexists; exists 30%Q
    | exists {| sessions_per_week := 5; weekly_fee := 35 |}; eexists; exists 35%Q ];
    (split; [reflexivity|]; split; [reflexivity|]);
    cbn [training_cost coaching_cost competition_cost total_cost weekly_fee];
    (split; [exact_value|]); (split; [exact_value|]).
  all: repeat match goal with H : _ \/ _ |- _ => destruct H as [H|H] end; subst.
  all: repeat split; try exact_value.
Qed.

Lemma not_nan_leb_ltb (x y : float) :
  PrimFloat.is_nan x = false -> PrimFloat.is_nan y = false ->
  (x <=? y)%float = negb (y <? x)%float.
Proof.
  unfold PrimFloat.is_nan. rewrite !eqb_spec, leb_spec, ltb_spec.
  unfold SFeqb, SFleb, SFltb. rewrite (SFcompare_swap (Prim2SF x) (Prim2SF y)).
  destruct (Prim2SF x) as [sx|sx| |sx mx ex], (Prim2SF y) as [sy|sy| |sy my ey];
    simpl; try discriminate; intros _ _;
    try reflexivity; try (destruct sx; reflexivity); try (destruct sy; reflexivity);
    try (destruct sx, sy; reflexivity).
  destruct sx, sy; try reflexivity;
    destruct (ex ?= ey); try reflexivity;
    destruct (Pos.compare_cont Eq mx my); reflexivity.
Qed.

(** For a weight that is a number, construction fails exactly when a rule
    fails, and reports the first failing rule. *)
Theorem construction_reports_first_failure
    (name plan : string) (w : float) (comps hours : Z) :
  PrimFloat.is_nan w = false ->
  Athlete.__init__ name plan w comps hours
  = match first_failure (validation_checks name plan w comps hours) with
    | Some e => Raise e
    | None => Ok {| name := PyStr.strip name; training_plan := plan; current_weight := w;
                    competitions := comps; private_coaching_hours := hours;
                    weight_category := _determine_weight_category w |}
    end.
Proof.
  intros Hnan.
  unfold Athlete.__init__, _validate_name, _validate_training_plan, _validate_weight,
    _validate_competitions, _validate_coaching_hours, MAX_PRIVATE_COACHING_HOURS,
    validation_checks, first_failure.
  cbn [find fst snd option_map].
  destruct (PyStr.strip name =? "")%string; [reflexivity|]. cbn [negb bind].
  destruct (dict_mem TRAINING_PLANS plan); [|reflexivity]. cbn [negb bind].
  rewrite (not_nan_leb_ltb w 0 Hnan eq_refl), (not_nan_leb_ltb w 200 Hnan eq_refl).
  destruct (0 <? w)%float; [|reflexivity]. cbn [negb bind].
  destruct (200 <? w)%float; [reflexivity|]. cbn [negb bind].
  rewrite (Z.ltb_antisym 0 comps), (Z.gtb_ltb comps 0), (Z.gtb_ltb comps 4),
    (Z.ltb_antisym comps 4), (Z.ltb_antisym 0 hours), (Z.gtb_ltb hours 5),
    (Z.ltb_antisym hours 5).
  destruct (0 <=? comps); [|reflexivity]. cbn [negb bind].
  destruct ((plan =? "Beginner")%string && (0 <? comps)); [reflexivity|]. cbn [negb bind].
  destruct (comps <=? 4); [|reflexivity]. cbn [negb bind].
  destruct (0 <=? hours); [|reflexivity]. cbn [negb bind].
  destruct (hours <=? 5); reflexivity.
Qed.

(** ** Strings *)

Lemma lstrip_clean (s : string) : clean (PyStr.lstrip s).
Proof.
  induction s as [|c s IH]; simpl; [exact I|].
  destruct (PyStr.isspace c) eqn:E; [exact IH | exact E].
Qed.

Lemma lstrip_of_clean (s : string) : clean s -> PyStr.lstrip s = s.
Proof. destruct s as [|c s]; simpl; [reflexivity|]. now intros ->. Qed.

Lemma rstrip_clean (s : string) : clean s -> clean (PyStr.rstrip s).
Proof.
  destruct s as [|c s]; simpl; [trivial|]. intros Hc.
  destruct (PyStr.rstrip s); [rewrite Hc|]; exact Hc.
Qed.

Lemma rstrip_idempotent (s : string) : PyStr.rstrip (PyStr.rstrip s) = PyStr.rstrip s.
Proof.
  induction s as [|c s IH]; simpl; [reflexivity|].
  destruct (PyStr.rstrip s) as [|k kept] eqn:E.
  - destruct (PyStr.isspace c) eqn:Hc; simpl; [reflexivity | now rewrite Hc].
  - simpl. simpl in IH. destruct (PyStr.rstrip kept) as [|k' kept'] eqn:E'.
    + destruct (PyStr.isspace k); [discriminate | now rewrite IH].
    + now rewrite IH.
Qed.

Lemma strip_idempotent (s : string) : PyStr.strip (PyStr.strip s) = PyStr.strip s.
Proof.
  unfold PyStr.strip.
  rewrite (lstrip_of_clean (PyStr.rstrip (PyStr.lstrip s))).
  - apply rstrip_idempotent.
  - apply rstrip_clean, lstrip_clean.
Qed.

(** ** The callbacks as functions of the object *)

Section Callbacks.
Variable py_float : string -> option float.

Lemma known_plan_fees (a : Athlete.t) :
  known_plan a -> exists f, calculate_monthly_fees a = Ok f.
Proof.
  unfold known_plan, dict_mem, calculate_monthly_fees, dict_getitem.
  destruct (dict_get TRAINING_PLANS (training_plan a)); [|discriminate].
  intros _. eexists. reflexivity.
Qed.

Lemma insert_rows_athletes (l : list Athlete.t) (self : JudoManagementSystem) :
  athletes (snd (insert_rows l self)) = athletes self.
Proof.
  revert self. induction l as [|a l IH]; intros self; [reflexivity|].
  cbn [insert_rows]. unfold bindM, lift, modify.
  destruct (calculate_monthly_fees a); [|reflexivity].
  rewrite IH. reflexivity.
Qed.

Lemma insert_rows_known (l : list Athlete.t) (self : JudoManagementSystem) :
  Forall known_plan l ->
  exists lines,
    insert_rows l self = (Ok tt, set_athlete_display (athlete_display self ++ lines) self)
    /\ Forall2 shows lines l.
Proof.
  intros Hl. revert self. induction Hl as [|a l Ha Hl IH]; intros self.
  - exists []. split; [|constructor]. cbn. rewrite app_nil_r. destruct self; reflexivity.
  - destruct (known_plan_fees a Ha) as [f Hf].
    cbn [insert_rows]. unfold bindM at 1, lift. rewrite Hf.
    unfold bindM at 1, modify.
    match goal with |- context [insert_rows l ?s] => destruct (IH s) as (lines & E & Hs) end.
    rewrite E. eexists (_ :: lines). split.
    + cbn. rewrite <- app_assoc. reflexivity.
    + constructor; [reflexivity | exact Hs].
Qed.

Lemma refresh_athletes (self : JudoManagementSystem) :
  athletes (snd (refresh_athlete_display self)) = athletes self.
Proof.
  unfold refresh_athlete_display, bindM, modify, get.
  cbn. rewrite insert_rows_athletes. reflexivity.
Qed.

Lemma refresh_known (self : JudoManagementSystem) :
  Forall known_plan (athletes self) ->
  exists lines,
    refresh_athlete_display self = (Ok tt, set_athlete_display lines self)
    /\ Forall2 shows lines (athletes self).
Proof.
  intros Hk. unfold refresh_athlete_display, bindM, modify, get. cbn.
  destruct (insert_rows_known (athletes self) (set_athlete_display [] self) Hk)
    as (lines & E & Hs).
  change (athletes (set_athlete_display [] self)) with (athletes self).
  rewrite E. exists lines. split; [|exact Hs]. reflexivity.
Qed.


Lemma register_athlete_body_views (self : JudoManagementSystem) :
  register_athlete_body py_float self
  = match registration_attempt py_float self with
    | Ok athlete => registration_commit athlete self
    | Raise e => (Raise e, self)
    end.
Proof.
  unfold register_athlete_body, registration_attempt.
  unfold bindM at 1, get.
  destruct (PyStr.strip (name_field self) =? "")%string; [reflexivity|].
  destruct (existsb _ (athletes self)); [reflexivity|].
  unfold bindM at 1, lift.
  destruct (validate_number_input py_float (weight_field self) "Weight" 30 (Some 200))
    as [weight|e]; [|reflexivity]. cbn [bind].
  unfold bindM at 1.
  destruct (bind (validate_number_input py_float (competitions_field self) "Competitions" 0
                    (Some 4)) py_int) as [competitions|e]; [|reflexivity]. cbn [bind].
  unfold bindM at 1.
  destruct (bind (validate_number_input py_float (coaching_field self)
                    "Private coaching hours" 0 (Some MAX_PRIVATE_COACHING_HOURS)) py_int)
    as [coaching_hours|e]; [|reflexivity]. cbn [bind].
  unfold bindM at 1.
  destruct (Athlete.__init__ _ _ _ _ _) as [athlete|e]; reflexivity.
Qed.

Lemma registration_attempt_ok (self : JudoManagementSystem) (a : Athlete.t) :
  registration_attempt py_float self = Ok a ->
  known_plan a
  /\ name a = PyStr.strip (name_field self)
  /\ PyStr.strip (name_field self) <> ""
  /\ ~ In (PyStr.lower (PyStr.strip (name_field self))) (folded_names (athletes self)).
Proof.
  unfold registration_attempt.
  destruct (PyStr.strip (name_field self) =? "")%string eqn:Hn; [discriminate|].
  destruct (existsb _ (athletes self)) eqn:Hd; [discriminate|].
  destruct (validate_number_input _ _ _ _ _) as [weight|e]; [|discriminate]. cbn [bind].
  destruct (bind _ py_int) as [competitions|e]; [|discriminate]. cbn [bind].
  destruct (bind _ py_int) as [coaching_hours|e]; [|discriminate]. cbn [bind].
  intros Hinit. apply init_ok in Hinit.
  destruct Hinit as (_ & Hplan & _ & _ & _ & _ & _ & ->).
  unfold known_plan. cbn [training_plan name]. rewrite strip_idempotent.
  apply String.eqb_neq in Hn. repeat split; auto.
  unfold folded_names. rewrite in_map_iff. intros (b & Hb & Hin).
  assert (Ht : existsb (fun athlete =>
                (PyStr.lower (name athlete)
                 =? PyStr.lower (PyStr.strip (name_field self)))%string) (athletes self) = true).
  { apply existsb_exists. exists b. split; [exact Hin|]. now apply String.eqb_eq. }
  congruence.
Qed.

Lemma update_athlete_selector_run (self : JudoManagementSystem) :
  exists values selected,
    update_athlete_selector self = (Ok tt, set_athlete_selector values selected self).
Proof.
  unfold update_athlete_selector, modify.
  destruct (map name (athletes self)) as [|first others] eqn:E; eauto.
Qed.

Lemma registration_commit_known (a : Athlete.t) (self : JudoManagementSystem) :
  Forall known_plan (athletes self) -> known_plan a ->
  exists final,
    registration_commit a self
    = (Ok (showinfo "Registration Complete" (name a ++ " has been successfully registered!")),
       final)
    /\ athletes final = (athletes self ++ [a])%list
    /\ Forall2 shows (athlete_display final) (athletes final).
Proof.
  intros Hk Ha. unfold registration_commit.
  unfold bindM at 1, modify at 1.
  set (appended := set_athletes (athletes self ++ [a]) self).
  assert (Hk' : Forall known_plan (athletes appended)).
  { unfold appended. cbn. apply Forall_app. split; [exact Hk | constructor; [exact Ha | constructor]]. }
  destruct (refresh_known appended Hk') as (lines & E & Hs).
  unfold bindM at 1. rewrite E.
  destruct (update_athlete_selector_run (set_athlete_display lines appended))
    as (values & selected & Eu).
  unfold bindM at 1. rewrite Eu.
  eexists. split; [reflexivity|]. split; [reflexivity | exact Hs].
Qed.

(** The two ways a registration ends when every plan in the list is known. *)
Lemma register_athlete_cases (self : JudoManagementSystem) :
  Forall known_plan (athletes self) ->
  (exists e,
     registration_attempt py_float self = Raise e
     /\ register_athlete py_float self = (Ok (error_dialog e), self))
  \/ (exists a final,
        registration_attempt py_float self = Ok a
        /\ register_athlete py_float self
           = (Ok (showinfo "Registration Complete"
                    (name a ++ " has been successfully registered!")), final)
        /\ athletes final = (athletes self ++ [a])%list
        /\ Forall2 shows (athlete_display final) (athletes final)).
Proof.
  intros Hk. unfold register_athlete. rewrite register_athlete_body_views.
  destruct (registration_attempt py_float self) as [a|e] eqn:E.
  - right. destruct (registration_attempt_ok self a E) as (Ha & _).
    destruct (registration_commit_known a self Hk Ha) as (final & Ec & Hl & Hs).
    exists a, final. rewrite Ec. auto.
  - left. exists e. split; [reflexivity|]. destruct e; reflexivity.
Qed.

(** The list [remove_athlete] leaves, whatever the display holds. *)
Lemma remove_athlete_athletes (selection : list nat) (answer : bool)
    (self : JudoManagementSystem) :
  athletes (snd (remove_athlete selection answer self))
  = match selection with
    | [] => athletes self
    | item :: _ =>
        match nth_error (athlete_display self) item with
        | Some line =>
            if answer
            then filter (fun a => negb (name a =? row_name line)%string) (athletes self)
            else athletes self
        | None => athletes self
        end
    end.
Proof.
  unfold remove_athlete. destruct selection as [|item rest]; [reflexivity|].
  unfold bindM at 1, get. unfold bindM at 1, lift.
  destruct (nth_error (athlete_display self) item) as [line|]; [|reflexivity].
  destruct answer; [|reflexivity].
  unfold bindM at 1, modify at 1.
  set (removed := set_athletes _ self).
  unfold bindM at 1.
  pose proof (refresh_athletes removed) as Hr.
  destruct (refresh_athlete_display removed) as [[[]|e] refreshed]; cbn [snd] in Hr.
  - destruct (update_athlete_selector_run refreshed) as (values & selected & Eu).
    unfold bindM at 1. rewrite Eu. cbn. exact Hr.
  - cbn. exact Hr.
Qed.

Lemma filter_folded_names (keep : Athlete.t -> bool) (l : list Athlete.t) :
  NoDup (folded_names l) -> NoDup (folded_names (filter keep l)).
Proof.
  unfold folded_names. induction l as [|a l IH]; cbn; [trivial|].
  intros Hn. inversion Hn as [|? ? Hnotin Hrest]; subst.
  destruct (keep a); cbn; [constructor|]; auto.
  rewrite in_map_iff in *. intros (b & Hb & Hin). apply Hnotin.
  exists b. split; [exact Hb|]. apply filter_In in Hin. tauto.
Qed.

Lemma remove_athlete_consistent (selection : list nat) (answer : bool)
    (self : JudoManagementSystem) :
  consistent self -> consistent (snd (remove_athlete selection answer self)).
Proof.
  intros (Hk & Hn & Hs). unfold remove_athlete.
  destruct selection as [|item rest]; [repeat split; assumption|].
  unfold bindM at 1, get. unfold bindM at 1, lift.
  destruct (nth_error (athlete_display self) item) as [line|]; [|repeat split; assumption].
  destruct answer; [|repeat split; assumption].
  unfold bindM at 1, modify at 1.
  set (removed := set_athletes _ self).
  assert (Hk' : Forall known_plan (athletes removed)).
  { unfold removed. cbn. rewrite Forall_forall in *. intros a Ha.
    apply filter_In in Ha. apply Hk. tauto. }
  destruct (refresh_known removed Hk') as (lines & E & Hl).
  unfold bindM at 1. rewrite E.
  destruct (update_athlete_selector_run (set_athlete_display lines removed))
    as (values & selected & Eu).
  unfold bindM at 1. rewrite Eu. cbn.
  repeat split; [exact Hk' | | exact Hl].
  apply filter_folded_names. exact Hn.
Qed.

Lemma generate_individual_report_frame (self : JudoManagementSystem) :
  athletes (snd (generate_individual_report self)) = athletes self
  /\ athlete_display (snd (generate_individual_report self)) = athlete_display self.
Proof.
  unfold generate_individual_report, bindM, get, lift, modify, ret.
  destruct (athletes self) as [|first others] eqn:E; [cbn; rewrite E; split; reflexivity|].
  destruct (selected_athlete_var self =? "")%string; [cbn; rewrite E; split; reflexivity|].
  destruct (find _ _); [|cbn; rewrite E; split; reflexivity].
  destruct (generate_fee_report _); cbn; rewrite E; split; reflexivity.
Qed.

Lemma generate_summary_report_frame (self : JudoManagementSystem) :
  athletes (snd (generate_summary_report self)) = athletes self
  /\ athlete_display (snd (generate_summary_report self)) = athlete_display self.
Proof.
  unfold generate_summary_report, bindM, get, lift, modify, ret.
  destruct (athletes self) as [|first others] eqn:E; [cbn; rewrite E; split; reflexivity|].
  destruct (summarise _); cbn; rewrite E; split; reflexivity.
Qed.

Lemma consistent_frame (self self' : JudoManagementSystem) :
  athletes self' = athletes self -> athlete_display self' = athlete_display self ->
  consistent self -> consistent self'.
Proof. unfold consistent. intros -> ->. trivial. Qed.

Lemma initial_consistent : consistent (snd JudoManagementSystem__init__).
Proof.
  unfold consistent. vm_compute athletes. vm_compute athlete_display.
  repeat split.
  - repeat constructor.
  - unfold folded_names. cbn [map]. vm_compute PyStr.lower.
    repeat (constructor; [cbn; intuition discriminate|]). constructor.
  - repeat constructor.
Qed.

Lemma perform_consistent (a : action) (self : JudoManagementSystem) :
  consistent self -> consistent (perform py_float a self).
Proof.
  intros Hc.
  destruct a as [text|text|text|text|chosen|chosen| | | |selection answer| | ];
    cbn [perform];
    try (apply (consistent_frame self); [reflexivity | reflexivity | exact Hc]).
  - (* SelectPlan *)
    unfold on_plan_change, bindM, get, modify, ret. cbn.
    destruct (chosen =? "Beginner")%string;
      apply (consistent_frame self); auto.
  - (* ClickRegister *)
    destruct Hc as (Hk & Hn & Hs).
    destruct (register_athlete_cases self Hk)
      as [(e & _ & ->) | (r & final & Ha & -> & Hl & Hs')];
      cbn [snd]; [repeat split; assumption|].
    destruct (registration_attempt_ok self r Ha) as (Hr & Hname & _ & Hfresh).
    repeat split.
    + rewrite Hl. apply Forall_app. split; [exact Hk | constructor; [exact Hr | constructor]].
    + rewrite Hl. unfold folded_names in *. rewrite map_app. cbn [map].
      apply NoDup_app.
      * exact Hn.
      * constructor; [intros [] | constructor].
      * intros x Hx [<-|[]]. rewrite Hname in Hx. contradiction.
    + exact Hs'.
  - (* ClickRefresh *)
    destruct Hc as (Hk & Hn & Hs).
    destruct (refresh_known self Hk) as (lines & -> & Hl).
    repeat split; assumption.
  - (* ClickRemove *)
    apply remove_athlete_consistent. exact Hc.
  - (* ClickIndividualReport *)
    destruct (generate_individual_report_frame self) as (Ea & Ed).
    apply (consistent_frame self); assumption.
  - (* ClickSummary *)
    destruct (generate_summary_report_frame self) as (Ea & Ed).
    apply (consistent_frame self); assumption.
Qed.

(** Every state the application reaches is consistent. *)
Lemma reachable_consistent (self : JudoManagementSystem) :
  reachable py_float self -> consistent self.
Proof.
  induction 1 as [|a self _ IH]; [exact initial_consistent | now apply perform_consistent].
Qed.

End Callbacks.

(** ** The registry *)

Section Registry.
Variable py_float : string -> option float.

(** The errors [validate_number_input] raises at a call site with two integer
    bounds. *)
Lemma validate_number_input_raises (value field : string) (lo hi : Z) (e : exn) :
  validate_number_input py_float value field lo (Some hi) = Raise e ->
  e = ValueError (field ++ " must be a valid number")
  \/ e = ValueError (field ++ " must be at least " ++ PyStr.of_int lo)
  \/ e = ValueError (field ++ " cannot exceed " ++ PyStr.of_int hi).
Proof.
  unfold validate_number_input, validate_number_input_body.
  destruct (py_float value) as [num_val|].
  - destruct (num_val <? float_of_int lo)%float.
    + destruct (PyStr.contains _ _); intros E; inversion E; subst; tauto.
    + destruct (float_of_int hi <? num_val)%float; [|discriminate].
      destruct (PyStr.contains _ _); intros E; inversion E; subst; tauto.
  - assert (Hc : PyStr.contains "could not convert"
                   ("could not convert string to float: " ++ PyStr.repr value) = true)
      by reflexivity.
    rewrite Hc. intros E; inversion E; subst; tauto.
Qed.

Lemma py_int_raises (x : float) (e : exn) :
  py_int x = Raise e ->
  e = ValueError "cannot convert float NaN to integer"
  \/ e = OverflowError "cannot convert float infinity to integer".
Proof.
  unfold py_int. destruct (trunc x); [discriminate|].
  destruct (PrimFloat.is_nan x); intros E; inversion E; auto.
Qed.

Lemma init_raises (name plan : string) (w : float) (comps hours : Z) (e : exn) :
  Athlete.__init__ name plan w comps hours = Raise e ->
  In e (map snd (validation_checks name plan w comps hours)).
Proof.
  unfold Athlete.__init__, _validate_name, _validate_training_plan, _validate_weight,
    _validate_competitions, _validate_coaching_hours, validation_checks.
  destruct (PyStr.strip name =? "")%string; [intros E; inversion E; cbn; tauto|].
  destruct (dict_mem TRAINING_PLANS plan); [|intros E; inversion E; cbn; tauto].
  destruct (w <=? 0)%float; [intros E; inversion E; cbn; tauto|].
  destruct (200 <? w)%float; [intros E; inversion E; cbn; tauto|].
  destruct (comps <? 0); [intros E; inversion E; cbn; tauto|].
  destruct ((plan =? "Beginner")%string && (comps >? 0)); [intros E; inversion E; cbn; tauto|].
  destruct (comps >? 4); [intros E; inversion E; cbn; tauto|].
  destruct (hours <? 0); [intros E; inversion E; cbn; tauto|].
  destruct (hours >? MAX_PRIVATE_COACHING_HOURS); [intros E; inversion E; cbn; tauto|].
  discriminate.
Qed.

(** The duplicate-name error comes from the duplicate check and from nowhere
    else. *)
Lemma registration_attempt_duplicate (self : JudoManagementSystem) :
  registration_attempt py_float self = Raise duplicate_name
  <-> PyStr.strip (name_field self) <> ""
      /\ exists a, In a (athletes self)
                   /\ PyStr.lower (name a) = PyStr.lower (PyStr.strip (name_field self)).
Proof.
  unfold registration_attempt, duplicate_name.
  destruct (PyStr.strip (name_field self) =? "")%string eqn:Hn.
  { apply String.eqb_eq in Hn. split; [discriminate | intros (H & _); contradiction]. }
  apply String.eqb_neq in Hn.
  destruct (existsb _ (athletes self)) eqn:Hd.
  { split; [intros _|reflexivity]. split; [exact Hn|].
    apply existsb_exists in Hd. destruct Hd as (a & Hin & Ha).
    exists a. split; [exact Hin | now apply String.eqb_eq]. }
  split.
  - intros H. exfalso. revert H.
    destruct (validate_number_input _ _ _ _ _) as [weight|e] eqn:Ew.
    2:{ cbn [bind]. intros H. inversion H; subst.
        apply validate_number_input_raises in Ew.
        destruct Ew as [Ew|[Ew|Ew]]; vm_compute in Ew; discriminate Ew. }
    cbn [bind].
    destruct (validate_number_input py_float (competitions_field self) _ _ _) as [c|e] eqn:Ec.
    2:{ cbn [bind]. intros H. inversion H; subst.
        apply validate_number_input_raises in Ec.
        destruct Ec as [Ec|[Ec|Ec]]; vm_compute in Ec; discriminate Ec. }
    cbn [bind].
    destruct (py_int c) as [competitions|e] eqn:Eci.
    2:{ intros H. inversion H; subst.
        apply py_int_raises in Eci. destruct Eci as [Eci|Eci]; discriminate Eci. }
    destruct (validate_number_input py_float (coaching_field self) _ _ _) as [h|e] eqn:Eh.
    2:{ cbn [bind]. intros H. inversion H; subst.
        apply validate_number_input_raises in Eh.
        destruct Eh as [Eh|[Eh|Eh]]; vm_compute in Eh; discriminate Eh. }
    cbn [bind].
    destruct (py_int h) as [coaching|e] eqn:Ehi.
    2:{ intros H. inversion H; subst.
        apply py_int_raises in Ehi. destruct Ehi as [Ehi|Ehi]; discriminate Ehi. }
    intros H. apply init_raises in H. cbn in H.
    repeat (destruct H as [H|H]; [discriminate H|]). exact H.
  - intros (_ & a & Hin & Ha). exfalso.
    assert (Ht : existsb (fun athlete =>
                  (PyStr.lower (name athlete)
                   =? PyStr.lower (PyStr.strip (name_field self)))%string) (athletes self) = true).
    { apply existsb_exists. exists a. split; [exact Hin | now apply String.eqb_eq]. }
    congruence.
Qed.


Lemma folded_names_inj (l : list Athlete.t) (a b : Athlete.t) :
  NoDup (folded_names l) -> In a l -> In b l ->
  PyStr.lower (name a) = PyStr.lower (name b) -> a = b.
Proof.
  unfold folded_names. induction l as [|x l IH]; cbn; [intros _ []|].
  intros Hn Ha Hb Heq. inversion Hn as [|? ? Hnotin Hrest]; subst.
  destruct Ha as [->|Ha], Hb as [->|Hb]; auto.
  - exfalso. apply Hnotin. rewrite Heq. apply in_map_iff. eauto.
  - exfalso. apply Hnotin. rewrite <- Heq. apply in_map_iff. eauto.
Qed.

(** The outcome of [register_athlete] in a reachable state. *)
Lemma register_athlete_outcome (self : JudoManagementSystem) :
  reachable py_float self ->
  (exists e,
     registration_attempt py_float self = Raise e
     /\ register_athlete py_float self = (Ok (error_dialog e), self))
  \/ (exists a final,
        registration_attempt py_float self = Ok a
        /\ register_athlete py_float self
           = (Ok (showinfo "Registration Complete"
                    (name a ++ " has been successfully registered!")), final)
        /\ athletes final = (athletes self ++ [a])%list
        /\ name a = PyStr.strip (name_field self)).
Proof.
  intros Hr. destruct (reachable_consistent py_float self Hr) as (Hk & _).
  destruct (register_athlete_cases py_float self Hk)
    as [(e & He & Hreg) | (a & final & Ha & Hreg & Hl & _)].
  - left. eauto.
  - right. exists a, final. repeat split; auto.
    now destruct (registration_attempt_ok py_float self a Ha) as (_ & Hname & _).
Qed.

Lemma error_dialog_duplicate (e : exn) :
  error_dialog e = error_dialog duplicate_name -> e = duplicate_name.
Proof.
  destruct e; cbn; intros H; inversion H; reflexivity.
Qed.

(** C5. Registration fails with the duplicate-name error exactly when a
    registered athlete has the same name up to case; a registration that
    passes every check appends the athlete at the end of the list and leaves
    the athletes before it in place; in every state the application reaches no
    two athletes have names equal up to case; and once an athlete is removed
    its name is free again: registering it does not fail as a duplicate, and
    succeeds when the other fields pass their checks. *)
Theorem C5_registration_keeps_names_unique (self : JudoManagementSystem) :
  reachable py_float self ->
  (PyStr.strip (name_field self) <> "" ->
   (fst (register_athlete py_float self) = Ok (error_dialog duplicate_name)
    <-> exists a, In a (athletes self)
                  /\ PyStr.lower (name a) = PyStr.lower (PyStr.strip (name_field self))))
  /\ (athletes (snd (register_athlete py_float self)) = athletes self
      \/ exists a, athletes (snd (register_athlete py_float self))
                   = (athletes self ++ [a])%list)
  /\ (forall a, registration_attempt py_float self = Ok a ->
        exists final,
          register_athlete py_float self
          = (Ok (showinfo "Registration Complete"
                   (name a ++ " has been successfully registered!")), final)
          /\ athletes final = (athletes self ++ [a])%list
          /\ name a = PyStr.strip (name_field self))
  /\ NoDup (folded_names (athletes self))
  /\ (forall (a : Athlete.t) (item : nat) (line : row) (typed : string),
        In a (athletes self) ->
        nth_error (athlete_display self) item = Some line ->
        row_name line = name a ->
        PyStr.strip typed = name a ->
        let removed := perform py_float (ClickRemove [item] true) self in
        let filled := perform py_float (TypeName typed) removed in
        ~ In a (athletes removed)
        /\ ~ In (PyStr.lower (name a)) (folded_names (athletes removed))
        /\ fst (register_athlete py_float filled) <> Ok (error_dialog duplicate_name)
        /\ (forall b, registration_attempt py_float filled = Ok b ->
              name b = name a
              /\ athletes (snd (register_athlete py_float filled))
                 = (athletes removed ++ [b])%list)).
Proof.
  intros Hr. pose proof (reachable_consistent py_float self Hr) as (Hk & Hn & Hs).
  split; [|split; [|split; [|split]]].
  - intros Hname. split.
    + intros Hd. apply registration_attempt_duplicate.
      destruct (register_athlete_outcome self Hr)
        as [(e & He & Hreg) | (a & final & _ & Hreg & _)];
        rewrite Hreg in Hd; cbn [fst] in Hd; inversion Hd as [Hd'].
      rewrite He. f_equal. now apply error_dialog_duplicate.
    + intros Hex.
      assert (Hd : registration_attempt py_float self = Raise duplicate_name)
        by (apply registration_attempt_duplicate; auto).
      unfold register_athlete. rewrite register_athlete_body_views, Hd. reflexivity.
  - destruct (register_athlete_outcome self Hr)
      as [(e & _ & ->) | (a & final & _ & -> & Hl & _)]; cbn [snd]; eauto.
  - intros a Ha.
    destruct (register_athlete_outcome self Hr)
      as [(e & He & _) | (a' & final & Ha' & Hreg & Hl & Hname)]; [congruence|].
    assert (a' = a) by congruence. subst a'. eauto.
  - exact Hn.
  - intros a item line typed Hin Hitem Hline Htyped removed filled.
    assert (Hrem : athletes removed
                   = filter (fun x => negb (name x =? name a)%string) (athletes self)).
    { unfold removed. cbn [perform]. rewrite remove_athlete_athletes, Hitem, Hline.
      reflexivity. }
    assert (Hr1 : reachable py_float removed) by (apply reachable_step; exact Hr).
    assert (Hr2 : reachable py_float filled) by (apply reachable_step; exact Hr1).
    assert (Hfree : ~ In (PyStr.lower (name a)) (folded_names (athletes removed))).
    { rewrite Hrem. unfold folded_names. rewrite in_map_iff. intros (b & Hb & Hinb).
      apply filter_In in Hinb. destruct Hinb as (Hinb & Hdiff).
      assert (b = a) by (apply (folded_names_inj (athletes self)); auto).
      subst b. rewrite String.eqb_refl in Hdiff. discriminate. }
    assert (Hdup : registration_attempt py_float filled <> Raise duplicate_name).
    { intros Hd. apply registration_attempt_duplicate in Hd.
      destruct Hd as (_ & b & Hinb & Hb). apply Hfree.
      change (name_field filled) with typed in Hb. rewrite Htyped in Hb.
      change (athletes filled) with (athletes removed) in Hinb.
      rewrite <- Hb. unfold folded_names. apply in_map_iff. eauto. }
    split; [|split; [exact Hfree | split]].
    + rewrite Hrem. intros Hf. apply filter_In in Hf. destruct Hf as (_ & Hf).
      rewrite String.eqb_refl in Hf. discriminate.
    + intros Hd.
      destruct (register_athlete_outcome filled Hr2)
        as [(e & He & Hreg) | (b & final & _ & Hreg & _)];
        rewrite Hreg in Hd; cbn [fst] in Hd; inversion Hd as [Hd'].
      apply Hdup. rewrite He. f_equal. now apply error_dialog_duplicate.
    + intros b Hb.
      destruct (register_athlete_outcome filled Hr2)
        as [(e & He & _) | (b' & final & Hb' & Hreg & Hl & Hname)]; [congruence|].
      assert (b' = b) by congruence. subst b'.
      rewrite Hreg. cbn [snd]. split; [|exact Hl].
      change (name_field filled) with typed in Hname.
      rewrite Hname. exact Htyped.
Qed.


(** C7. A rejected registration changes nothing: in every state the
    application reaches, when [register_athlete] ends with an error box the
    object is exactly the one before the call; a sample that fails validation
    is skipped by the initial load with the object untouched; and a
    construction either raises and hands out no record, or returns a record
    with all six fields set from the validated values. *)
Theorem C7_rejection_is_atomic (self : JudoManagementSystem) :
  reachable py_float self ->
  (forall title message final,
     register_athlete py_float self = (Ok (showerror title message), final) ->
     final = self)
  /\ (forall e, registration_attempt py_float self = Raise e ->
        register_athlete py_float self = (Ok (error_dialog e), self))
  /\ (forall name plan w comps hours rest message (any : JudoManagementSystem),
        Athlete.__init__ name plan w comps hours = Raise (ValueError message) ->
        load_samples ((name, plan, w, comps, hours) :: rest) any = load_samples rest any)
  /\ (forall name plan w comps hours,
        (exists e, Athlete.__init__ name plan w comps hours = Raise e)
        \/ Athlete.__init__ name plan w comps hours
           = Ok {| name := PyStr.strip name; training_plan := plan; current_weight := w;
                   competitions := comps; private_coaching_hours := hours;
                   weight_category := _determine_weight_category w |}).
Proof.
  intros Hr. split; [|split; [|split]].
  - intros title message final Hreg.
    destruct (register_athlete_outcome self Hr)
      as [(e & _ & Hreg') | (a & final' & _ & Hreg' & _)];
      rewrite Hreg' in Hreg; inversion Hreg; reflexivity.
  - intros e He.
    destruct (register_athlete_outcome self Hr)
      as [(e' & He' & Hreg) | (a & final & Ha & _)]; congruence.
  - intros name plan w comps hours rest message any Hinit.
    cbn [load_samples]. rewrite Hinit. reflexivity.
  - intros name plan w comps hours.
    destruct (Athlete.__init__ name plan w comps hours) as [r|e] eqn:E; [right|left; eauto].
    apply init_ok in E. destruct E as (_ & _ & _ & _ & _ & _ & _ & ->). reflexivity.
Qed.

(** ** The facility summary *)

Lemma generate_fee_report_raises (a : Athlete.t) (e : exn) :
  generate_fee_report a = Raise e -> exists key, e = KeyError key.
Proof.
  unfold generate_fee_report, calculate_monthly_fees, get_weight_analysis, dict_getitem.
  destruct (dict_get TRAINING_PLANS (training_plan a)); cbn [bind];
    [|intros E; inversion E; eauto].
  destruct (dict_get WEIGHT_CATEGORIES (weight_category a)); cbn [bind];
    [|intros E; inversion E; eauto].
  destruct (weight_category a =? "Heavyweight")%string; cbn [bind]; [discriminate|].
  destruct (5 <? _)%float; cbn [bind]; [discriminate|].
  destruct (0 <? _)%float; discriminate.
Qed.

Lemma summary_loop_raises (l : list Athlete.t) (reports : list report_block)
    (total : float) (e : exn) :
  summary_loop l reports total = Raise e -> exists key, e = KeyError key.
Proof.
  revert reports total. induction l as [|a l IH]; intros reports total; cbn [summary_loop].
  - discriminate.
  - destruct (generate_fee_report a) as [report|e'] eqn:Er; cbn [bind].
    + unfold calculate_monthly_fees, dict_getitem.
      destruct (dict_get TRAINING_PLANS (training_plan a)); cbn [bind].
      * apply IH.
      * intros E; inversion E; eauto.
    + intros E; inversion E; subst. eapply generate_fee_report_raises; eauto.
Qed.

Lemma summarise_raises (l : list Athlete.t) (e : exn) :
  l <> [] -> summarise l = Raise e -> exists key, e = KeyError key.
Proof.
  intros Hl. unfold summarise.
  destruct (summary_loop l [] (float_of_int 0)) as [[reports total]|e'] eqn:El; cbn [bind].
  - unfold py_truediv.
    destruct (Z.of_nat (List.length l) =? 0) eqn:Hz; cbn [bind]; [|discriminate].
    apply Z.eqb_eq in Hz. destruct l; [contradiction | cbn in Hz; lia].
  - intros E; inversion E; subst. eapply summary_loop_raises; eauto.
Qed.

(** C8, as the code has it. With no athlete registered the summary opens
    the "No Athletes" box and returns with the object untouched; the division
    by the head count is behind that guard, so the callback never raises
    [ZeroDivisionError]: the head count is at least one where the average is
    computed. The computation behind the guard would divide by zero on an
    empty list. *)
Theorem C8_summary_guards_empty_list (self : JudoManagementSystem) :
  athletes self = [] ->
  generate_summary_report self
  = (Ok [showinfo "No Athletes" "Please register athletes before generating reports"], self)
  /\ (forall any : JudoManagementSystem,
        fst (generate_summary_report any) <> Raise ZeroDivisionError)
  /\ (forall (l : list Athlete.t) (total : float),
        l <> [] ->
        py_truediv total (Z.of_nat (List.length l))
        = Ok (total / float_of_int (Z.of_nat (List.length l)))%float)
  /\ summarise [] = Raise ZeroDivisionError.
Proof.
  intros Hempty. split; [|split; [|split]].
  - unfold generate_summary_report, bindM, get. rewrite Hempty. reflexivity.
  - intros any. unfold generate_summary_report, bindM, get, lift.
    destruct (athletes any) as [|a l] eqn:E; [discriminate|].
    destruct (summarise (a :: l)) as [reports|e] eqn:Es; [discriminate|].
    cbn [fst]. intros H. inversion H; subst.
    destruct (summarise_raises (a :: l) ZeroDivisionError ltac:(discriminate) Es) as (k & Hk).
    discriminate Hk.
  - intros l total Hl. unfold py_truediv.
    destruct (Z.of_nat (List.length l) =? 0) eqn:Hz; [|reflexivity].
    apply Z.eqb_eq in Hz. destruct l; [contradiction | cbn in Hz; lia].
  - reflexivity.
Qed.


(** A number below 30 is at most 200. *)
Lemma ltb_30_leb_200 (w : float) :
  (w <? 30)%float = true -> (w <=? 200)%float = true.
Proof.
  rewrite ltb_spec, leb_spec. unfold SFltb, SFleb.
  destruct (Prim2SF 30) as [| | |s30 m30 e30] eqn:E30; try discriminate E30.
  destruct (Prim2SF 200) as [| | |s200 m200 e200] eqn:E200; try discriminate E200.
  assert (He : e30 < e200 /\ s30 = false /\ s200 = false).
  { vm_compute in E30, E200. inversion E30; inversion E200. repeat split; reflexivity. }
  destruct He as (He & -> & ->). clear E30 E200.
  destruct (Prim2SF w) as [s|s| |s m e]; cbn; try discriminate.
  - reflexivity.
  - destruct s; [reflexivity | discriminate].
  - destruct s; [reflexivity|].
    destruct (Z.compare_spec e e30) as [Eq|Lt|Gt]; try discriminate.
    + subst e. intros _. destruct (Z.compare_spec e30 e200); lia || reflexivity.
    + intros _. destruct (Z.compare_spec e e200); lia || reflexivity.
Qed.

(** C9. The registration form refuses a weight below 30 kg that the record
    itself accepts: when the weight field reads as a number [w] with
    [0 < w < 30], [register_athlete] ends with an error box and leaves the
    object untouched (the message is "Weight must be at least 30" once the
    name is present and new), while [w] is at most 200 and [Athlete.__init__]
    accepts every weight in (0, 200] whenever the other fields pass. *)
Theorem C9_form_requires_30_kg (self : JudoManagementSystem) (w : float) :
  py_float (weight_field self) = Some w ->
  (0 <? w)%float = true -> (w <? 30)%float = true ->
  (exists message,
     register_athlete py_float self = (Ok (showerror "Registration Error" message), self)
     /\ (PyStr.strip (name_field self) <> "" ->
         ~ In (PyStr.lower (PyStr.strip (name_field self))) (folded_names (athletes self)) ->
         message = "Weight must be at least 30"))
  /\ (w <=? 200)%float = true
  /\ (forall (w' : float) (name plan : string) (comps hours : Z),
        (0 <? w')%float = true -> (w' <=? 200)%float = true ->
        PyStr.strip name <> "" ->
        dict_mem TRAINING_PLANS plan = true ->
        0 <= comps <= 4 -> (plan = "Beginner" -> comps = 0) -> 0 <= hours <= 5 ->
        Athlete.__init__ name plan w' comps hours
        = Ok {| name := PyStr.strip name; training_plan := plan; current_weight := w';
                competitions := comps; private_coaching_hours := hours;
                weight_category := _determine_weight_category w' |}).
Proof.
  intros Hparse Hpos Hlow. split; [|split; [now apply ltb_30_leb_200|]].
  - assert (Hw : validate_number_input py_float (weight_field self) "Weight" 30 (Some 200)
                 = Raise (ValueError "Weight must be at least 30")).
    { unfold validate_number_input, validate_number_input_body. rewrite Hparse.
      change (float_of_int 30) with 30%float. rewrite Hlow. reflexivity. }
    unfold register_athlete. rewrite register_athlete_body_views.
    unfold registration_attempt.
    destruct (PyStr.strip (name_field self) =? "")%string eqn:Hn.
    { eexists. split; [reflexivity|]. apply String.eqb_eq in Hn. intros H; contradiction. }
    destruct (existsb _ (athletes self)) eqn:Hd.
    { eexists. split; [reflexivity|]. intros _ Hfree. exfalso. apply Hfree.
      apply existsb_exists in Hd. destruct Hd as (a & Hin & Ha).
      apply String.eqb_eq in Ha. rewrite <- Ha. unfold folded_names.
      apply in_map_iff. eauto. }
    rewrite Hw. cbn [bind]. eexists. split; reflexivity.
  - intros w' name plan comps hours H0 H200 Hname Hplan Hc Hb Hh.
    assert (Hw0 : (w' <=? 0)%float = false).
    { destruct (w' <=? 0)%float eqn:E; [|reflexivity].
      apply leb_not_ltb in E. congruence. }
    pose proof (leb_not_ltb _ _ H200) as Hw200.
    unfold Athlete.__init__, _validate_name, _validate_training_plan, _validate_weight,
      _validate_competitions, _validate_coaching_hours, MAX_PRIVATE_COACHING_HOURS.
    apply String.eqb_neq in Hname. rewrite Hname, Hplan, Hw0, Hw200. cbn [negb bind].
    replace (comps <? 0) with false by lia.
    replace ((plan =? "Beginner")%string && (comps >? 0)) with false.
    2:{ destruct (plan =? "Beginner")%string eqn:Ep; [|reflexivity].
        apply String.eqb_eq in Ep. rewrite (Hb Ep). reflexivity. }
    replace (comps >? 4) with false by lia.
    replace (hours <? 0) with false by lia.
    replace (hours >? 5) with false by lia.
    reflexivity.
Qed.

(** C10. Removal takes out of the list exactly the athletes whose name is
    the text of the selected line, compared as strings, and keeps the others
    as they are and in their order; when no two names are equal up to case at
    most one athlete goes. With nothing selected, or when the user declines,
    the list stays as it is. *)
Theorem C10_removal_keeps_the_others (selection : list nat) (answer : bool)
    (self : JudoManagementSystem) :
  let after := athletes (snd (remove_athlete selection answer self)) in
  (selection = [] \/ answer = false -> after = athletes self)
  /\ (forall item rest line,
        selection = item :: rest ->
        nth_error (athlete_display self) item = Some line ->
        answer = true ->
        after = filter (fun a => negb (name a =? row_name line)%string) (athletes self)
        /\ (forall a, In a after <-> In a (athletes self) /\ name a <> row_name line)
        /\ (forall before a others,
              athletes self = (before ++ a :: others)%list ->
              name a <> row_name line ->
              after = (filter (fun a => negb (name a =? row_name line)%string) before
                       ++ a :: filter (fun a => negb (name a =? row_name line)%string) others)%list)
        /\ (NoDup (folded_names (athletes self)) ->
            (List.length (athletes self) <= List.length after + 1)%nat)).
Proof.
  intros after. unfold after. rewrite remove_athlete_athletes. split.
  - intros [->| ->]; [reflexivity|].
    destruct selection as [|item rest]; [reflexivity|].
    destruct (nth_error (athlete_display self) item); reflexivity.
  - intros item rest line -> -> ->. split; [reflexivity|]. split; [|split].
    + intros a. rewrite filter_In, negb_true_iff, String.eqb_neq. reflexivity.
    + intros before a others -> Ha. rewrite filter_app. cbn [filter].
      apply String.eqb_neq in Ha. rewrite Ha. reflexivity.
    + generalize (athletes self). intros l Hn.
      induction l as [|a l IH]; cbn [filter List.length]; [lia|].
      unfold folded_names in Hn. cbn [map] in Hn.
      inversion Hn as [|? ? Hnotin Hrest]; subst.
      destruct (name a =? row_name line)%string eqn:Ea; cbn [negb List.length].
      * apply String.eqb_eq in Ea.
        assert (Hall : filter (fun a0 => negb (name a0 =? row_name line)%string) l = l).
        { apply forallb_filter_id. apply forallb_forall. intros b Hb.
          apply negb_true_iff, String.eqb_neq. intros Eb. apply Hnotin.
          apply in_map_iff. exists b. split; [congruence | exact Hb]. }
        rewrite Hall. lia.
      * specialize (IH Hrest). lia.
Qed.

End Registry.

(** A Beginner entered in more than four competitions is turned away, and
    never with the too-many-competitions error: once the name and the weight
    pass, the error is the Beginner one. *)
Theorem beginner_over_four_competitions (name : string) (w : float) (comps hours : Z) :
  4 < comps ->
  exists e,
    Athlete.__init__ name "Beginner" w comps hours = Raise e
    /\ e <> ValueError "Maximum 4 competitions per month allowed"
    /\ (PyStr.strip name <> "" -> (w <=? 0)%float = false -> (200 <? w)%float = false ->
        e = ValueError "Beginner athletes cannot enter competitions").
Proof.
  intros Hc.
  unfold Athlete.__init__, _validate_name, _validate_training_plan, _validate_weight,
    _validate_competitions.
  destruct (PyStr.strip name =? "")%string eqn:Hn.
  { eexists. split; [reflexivity|]. split; [discriminate|].
    apply String.eqb_eq in Hn. intros H; contradiction. }
  cbn [bind]. change (dict_mem TRAINING_PLANS "Beginner") with true. cbn [negb bind].
  destruct (w <=? 0)%float.
  { eexists. split; [reflexivity|]. split; discriminate. }
  destruct (200 <? w)%float.
  { eexists. split; [reflexivity|]. split; discriminate. }
  cbn [bind].
  replace (comps <? 0) with false by lia.
  replace (("Beginner" =? "Beginner")%string && (comps >? 0)) with true
    by (cbn; symmetry; apply Z.gtb_lt; lia).
  eexists. split; [reflexivity|]. split; [discriminate | reflexivity].
Qed.

(** C2, at the input where the code parts from it: a weight that is not a
    number fails the rule [0 < weight], yet neither [weight <= 0] nor
    [weight > 200] holds of it, so construction succeeds (in the top
    category, by the fall-through [return]); typed into the form, it is
    registered. *)
Theorem C2_nan_weight_is_accepted :
  first_failure (validation_checks "A" "Elite" nan 0 0)
  = Some (ValueError "Weight must be greater than 0 kg")
  /\ Athlete.__init__ "A" "Elite" nan 0 0
     = Ok {| name := "A"; training_plan := "Elite"; current_weight := nan;
             competitions := 0; private_coaching_hours := 0;
             weight_category := "Heavyweight" |}
  /\ fst (register_athlete reads (set_form "A" "Elite" "nan" "0" "0" created))
     = Ok (showinfo "Registration Complete" "A has been successfully registered!")
  /\ athletes (snd (register_athlete reads (set_form "A" "Elite" "nan" "0" "0" created)))
     = [ {| name := "A"; training_plan := "Elite"; current_weight := nan;
            competitions := 0; private_coaching_hours := 0;
            weight_category := "Heavyweight" |} ].
Proof. repeat split; vm_compute; reflexivity. Qed.

(** C4. A Beginner with a competition cannot be constructed, so a
    constructed Beginner has no competition and pays no competition fee. *)
Theorem C4_beginner_has_no_competitions (name : string) (w : float) (comps hours : Z) :
  0 < comps ->
  (exists e, Athlete.__init__ name "Beginner" w comps hours = Raise e)
  /\ (forall name' plan' w' comps' hours' r,
        Athlete.__init__ name' plan' w' comps' hours' = Ok r ->
        training_plan r = "Beginner" ->
        competitions r = 0
        /\ exists f, calculate_monthly_fees r = Ok f
                     /\ competition_cost f = 0%float
                     /\ exactly (competition_cost f) 0).
Proof.
  intros Hc. split.
  - destruct (Athlete.__init__ name "Beginner" w comps hours) as [r|e] eqn:E; [|eauto].
    apply init_ok in E. destruct E as (_ & _ & _ & _ & _ & Hb & _). specialize (Hb eq_refl). lia.
  - intros name' plan' w' comps' hours' r E Hplan.
    apply init_ok in E. destruct E as (_ & _ & _ & _ & _ & Hb & _ & ->).
    cbn [training_plan] in Hplan. subst plan'. rewrite (Hb eq_refl).
    cbn [competitions]. split; [reflexivity|].
    eexists. split; [reflexivity|]. cbn [competition_cost]. split; [reflexivity|].
    eexists. split; vm_compute; reflexivity.
Qed.

(** ** The order of the doubles *)

Lemma before_trans (p q r : Z * Z * Z) : before p q -> before q r -> before p r.
Proof. destruct p as [[? ?] ?], q as [[? ?] ?], r as [[? ?] ?]. unfold before. lia. Qed.

Lemma SFleb_place (x y : spec_float) :
  SFleb x y = true <-> exists p q, place x = Some p /\ place y = Some q /\ before p q.
Proof.
  unfold SFleb.
  destruct x as [sx|sx| |sx mx ex], y as [sy|sy| |sy my ey]; cbn [SFcompare place];
    try (split; [discriminate | intros (p & q & Hp & Hq & _); discriminate]).
  all: try (destruct sx; try destruct sy; cbn;
            (split; [intros _; do 2 eexists; repeat split; cbn; lia
                    | reflexivity])).
  all: try (destruct sx; try destruct sy; cbn;
            (split; [discriminate
                    | intros (p & q & Hp & Hq & Hb); inversion Hp; inversion Hq; subst;
                      cbn in Hb; lia])).
  all: try (destruct sy; cbn;
            (split; [intros _; do 2 eexists; repeat split; cbn; lia
                    | reflexivity])).
  all: try (destruct sy; cbn;
            (split; [discriminate
                    | intros (p & q & Hp & Hq & Hb); inversion Hp; inversion Hq; subst;
                      cbn in Hb; lia])).
  all: destruct sx, sy; cbn.
  all: try (split; [intros _; do 2 eexists; repeat split; cbn; lia | reflexivity]).
  all: try (split; [discriminate
                   | intros (p & q & Hp & Hq & Hb); inversion Hp; inversion Hq; subst;
                     cbn in Hb; lia]).
  all: rewrite Pos.compare_cont_spec; cbn [Pos.switch_Eq];
    destruct (Z.compare_spec ex ey); destruct (Pos.compare_spec mx my); cbn;
    (split; [try discriminate; intros _; do 2 eexists; repeat split; cbn; lia
            | try reflexivity;
              intros (p & q & Hp & Hq & Hb); inversion Hp; inversion Hq; subst;
              cbn in Hb; lia]).
Qed.

Lemma leb_trans (x y z : float) :
  (x <=? y)%float = true -> (y <=? z)%float = true -> (x <=? z)%float = true.
Proof.
  rewrite !leb_spec, !SFleb_place.
  intros (p & q & Hp & Hq & Hpq) (q' & r & Hq' & Hr & Hqr).
  assert (q' = q) by congruence. subst q'.
  exists p, r. repeat split; auto. eapply before_trans; eauto.
Qed.

Lemma is_nan_spec (x : float) : PrimFloat.is_nan x = true <-> Prim2SF x = S754_nan.
Proof.
  unfold PrimFloat.is_nan. rewrite eqb_spec. unfold SFeqb.
  destruct (Prim2SF x) as [s|s| |s m e]; cbn [SFcompare].
  - split; discriminate.
  - destruct s; split; discriminate.
  - split; reflexivity.
  - destruct s; rewrite Z.compare_refl, Pos.compare_cont_refl; split; discriminate.
Qed.

Lemma nan_leb (x y : float) : PrimFloat.is_nan x = true -> (x <=? y)%float = false.
Proof.
  rewrite is_nan_spec, leb_spec. intros ->. reflexivity.
Qed.

Lemma nan_ltb (x y : float) : PrimFloat.is_nan y = true -> (x <? y)%float = false.
Proof.
  rewrite is_nan_spec, ltb_spec. intros ->. unfold SFltb.
  destruct (Prim2SF x); reflexivity.
Qed.

Lemma leb_not_nan (x y : float) : (x <=? y)%float = true -> PrimFloat.is_nan x = false.
Proof.
  intros H. destruct (PrimFloat.is_nan x) eqn:E; [|reflexivity].
  rewrite (nan_leb x y E) in H. discriminate.
Qed.

Lemma not_nan_leb_infinity (x : float) :
  PrimFloat.is_nan x = false -> (x <=? infinity)%float = true.
Proof.
  intros H. rewrite leb_spec. change (Prim2SF infinity) with (S754_infinity false).
  destruct (Prim2SF x) as [s|s| |s m e] eqn:E; try (destruct s; reflexivity).
  apply is_nan_spec in E. congruence.
Qed.

(** The fall-through [return "Heavyweight"] of [_determine_weight_category]
    is reached by a weight that is not a number, and by no other. *)
Theorem fall_through_only_for_nan (w : float) :
  (first_category WEIGHT_CATEGORIES w = None <-> PrimFloat.is_nan w = true)
  /\ (PrimFloat.is_nan w = true -> _determine_weight_category w = "Heavyweight").
Proof.
  assert (Hnan : PrimFloat.is_nan w = true -> first_category WEIGHT_CATEGORIES w = None).
  { intros H. unfold WEIGHT_CATEGORIES, first_category. now rewrite !(nan_leb w _ H). }
  split; [split; [|exact Hnan]|].
  - intros H. destruct (PrimFloat.is_nan w) eqn:E; [reflexivity|]. exfalso.
    pose proof (not_nan_leb_infinity w E) as Hinf.
    unfold WEIGHT_CATEGORIES, first_category in H. rewrite Hinf in H.
    repeat match type of H with
           | (if ?b then _ else _) = None => destruct b; try discriminate
           end.
  - intros H. unfold _determine_weight_category. now rewrite (Hnan H).
Qed.

(** A limit is above the weight exactly when the weight is a number that is
    not at most the limit. *)
Lemma ltb_limit (limit w : float) :
  PrimFloat.is_nan limit = false ->
  (limit <? w)%float = negb (PrimFloat.is_nan w) && negb (w <=? limit)%float.
Proof.
  intros Hl. destruct (PrimFloat.is_nan w) eqn:E.
  - now rewrite (nan_ltb limit w E).
  - rewrite (not_nan_leb_ltb w limit E Hl). cbn. now rewrite negb_involutive.
Qed.

(** The bands of the six categories. *)
Theorem weight_category_bands (w : float) :
  (_determine_weight_category w = "Flyweight" <-> (w <=? 66)%float = true)
  /\ (_determine_weight_category w = "Lightweight"
      <-> (66 <? w)%float = true /\ (w <=? 73)%float = true)
  /\ (_determine_weight_category w = "Light-Middleweight"
      <-> (73 <? w)%float = true /\ (w <=? 81)%float = true)
  /\ (_determine_weight_category w = "Middleweight"
      <-> (81 <? w)%float = true /\ (w <=? 90)%float = true)
  /\ (_determine_weight_category w = "Light-Heavyweight"
      <-> (90 <? w)%float = true /\ (w <=? 100)%float = true)
  /\ (_determine_weight_category w = "Heavyweight"
      <-> (100 <? w)%float = true \/ PrimFloat.is_nan w = true).
Proof.
  pose proof (fun H => leb_trans w 66 73 H eq_refl) as T1.
  pose proof (fun H => leb_trans w 73 81 H eq_refl) as T2.
  pose proof (fun H => leb_trans w 81 90 H eq_refl) as T3.
  pose proof (fun H => leb_trans w 90 100 H eq_refl) as T4.
  pose proof (fun H => leb_trans w 100 infinity H eq_refl) as T5.
  pose proof (not_nan_leb_infinity w) as Tinf.
  pose proof (leb_not_nan w infinity) as Tnan.
  rewrite !ltb_limit by reflexivity.
  unfold _determine_weight_category, WEIGHT_CATEGORIES, first_category.
  destruct (PrimFloat.is_nan w);
    destruct (w <=? 66)%float; destruct (w <=? 73)%float; destruct (w <=? 81)%float;
    destruct (w <=? 90)%float; destruct (w <=? 100)%float; destruct (w <=? infinity)%float;
    cbn [negb andb];
    try (specialize (T1 eq_refl)); try (specialize (T2 eq_refl));
    try (specialize (T3 eq_refl)); try (specialize (T4 eq_refl));
    try (specialize (T5 eq_refl)); try (specialize (Tinf eq_refl));
    try (specialize (Tnan eq_refl)); try discriminate;
    repeat split; intros; try discriminate; try reflexivity;
    try match goal with H : _ /\ _ |- _ => destruct H; discriminate end;
    try match goal with H : _ \/ _ |- _ => destruct H; discriminate end;
    auto.
Qed.

(** A heavier athlete is never put in a category with a lower limit. *)
Theorem weight_category_is_monotone (w1 w2 l1 l2 : float) :
  (w1 <=? w2)%float = true ->
  dict_get WEIGHT_CATEGORIES (_determine_weight_category w1) = Some l1 ->
  dict_get WEIGHT_CATEGORIES (_determine_weight_category w2) = Some l2 ->
  (l1 <=? l2)%float = true.
Proof.
  intros H12.
  pose proof (fun l H => leb_trans w1 w2 l H12 H) as T.
  pose proof (T 66%float) as T66. pose proof (T 73%float) as T73.
  pose proof (T 81%float) as T81. pose proof (T 90%float) as T90.
  pose proof (T 100%float) as T100. pose proof (T infinity) as Tinf. clear T.
  unfold _determine_weight_category, WEIGHT_CATEGORIES, first_category.
  destruct (w2 <=? 66)%float; [specialize (T66 eq_refl); rewrite T66|clear T66];
    [intros E1 E2; inversion E1; inversion E2; reflexivity|].
  destruct (w2 <=? 73)%float; [specialize (T73 eq_refl); rewrite T73|clear T73].
  { destruct (w1 <=? 66)%float; intros E1 E2; inversion E1; inversion E2; reflexivity. }
  destruct (w2 <=? 81)%float; [specialize (T81 eq_refl); rewrite T81|clear T81].
  { destruct (w1 <=? 66)%float; [|destruct (w1 <=? 73)%float];
      intros E1 E2; inversion E1; inversion E2; reflexivity. }
  destruct (w2 <=? 90)%float; [specialize (T90 eq_refl); rewrite T90|clear T90].
  { destruct (w1 <=? 66)%float; [|destruct (w1 <=? 73)%float; [|destruct (w1 <=? 81)%float]];
      intros E1 E2; inversion E1; inversion E2; reflexivity. }
  destruct (w2 <=? 100)%float; [specialize (T100 eq_refl); rewrite T100|clear T100].
  { destruct (w1 <=? 66)%float;
      [|destruct (w1 <=? 73)%float;
        [|destruct (w1 <=? 81)%float; [|destruct (w1 <=? 90)%float]]];
      intros E1 E2; inversion E1; inversion E2; reflexivity. }
  destruct (w1 <=? 66)%float;
    [|destruct (w1 <=? 73)%float;
      [|destruct (w1 <=? 81)%float;
        [|destruct (w1 <=? 90)%float;
          [|destruct (w1 <=? 100)%float; [|destruct (w1 <=? infinity)%float]]]]];
    destruct (w2 <=? infinity)%float;
    intros E1 E2; inversion E1; inversion E2; reflexivity.
Qed.

(** The category of a weight is a key of the table, so its limit is found. *)
Lemma weight_category_is_a_key (w : float) :
  exists limit, dict_get WEIGHT_CATEGORIES (_determine_weight_category w) = Some limit.
Proof.
  unfold _determine_weight_category, WEIGHT_CATEGORIES, first_category.
  destruct (w <=? 66)%float; [eexists; reflexivity|].
  destruct (w <=? 73)%float; [eexists; reflexivity|].
  destruct (w <=? 81)%float; [eexists; reflexivity|].
  destruct (w <=? 90)%float; [eexists; reflexivity|].
  destruct (w <=? 100)%float; [eexists; reflexivity|].
  destruct (w <=? infinity)%float; eexists; reflexivity.
Qed.

Lemma constructed_analysis (r : Athlete.t) :
  constructed r -> exists sentence, get_weight_analysis r = Ok sentence.
Proof.
  intros (typed & plan & w & comps & hours & E). apply init_ok in E.
  destruct E as (_ & _ & _ & _ & _ & _ & _ & ->).
  unfold get_weight_analysis, dict_getitem. cbn [weight_category current_weight].
  destruct (weight_category_is_a_key w) as (limit & ->). cbn [bind].
  destruct (_ =? "Heavyweight")%string; [eauto|].
  destruct (5 <? _)%float; [eauto|]. destruct (0 <? _)%float; eauto.
Qed.

(** [generate_fee_report] on a constructed athlete: it raises nothing; the
    report carries the athlete's plan with its weekly sessions, the fees of
    [calculate_monthly_fees] and the sentence of [get_weight_analysis]; the
    coaching line is there exactly when there are coaching hours and the
    competition line exactly when there are competitions, so a Beginner's
    report has no competition line. *)
Theorem fee_report_of_constructed (r : Athlete.t) :
  constructed r ->
  exists plan fees sentence report,
    dict_get TRAINING_PLANS (training_plan r) = Some plan
    /\ calculate_monthly_fees r = Ok fees
    /\ get_weight_analysis r = Ok sentence
    /\ generate_fee_report r = Ok report
    /\ report_name report = name r
    /\ report_plan report = training_plan r
    /\ report_sessions report = sessions_per_week plan
    /\ report_training report = training_cost fees
    /\ report_total report = total_cost fees
    /\ report_weight report = sentence
    /\ (report_coaching report = None <-> private_coaching_hours r = 0)
    /\ (private_coaching_hours r > 0 ->
        report_coaching report = Some (private_coaching_hours r, coaching_cost fees))
    /\ (report_competitions report = None <-> competitions r = 0)
    /\ (competitions r > 0 ->
        report_competitions report = Some (competitions r, competition_cost fees))
    /\ (training_plan r = "Beginner" -> report_competitions report = None).
Proof.
  intros Hr. destruct (constructed_analysis r Hr) as (sentence & Hs).
  destruct Hr as (typed & plan & w & comps & hours & E). apply init_ok in E.
  destruct E as (_ & Hplan & _ & _ & Hc & Hb & Hh & ->).
  revert Hs. unfold generate_fee_report, calculate_monthly_fees, dict_getitem.
  cbn [training_plan private_coaching_hours competitions name].
  unfold dict_mem in Hplan.
  destruct (dict_get TRAINING_PLANS plan) as [p|]; [|discriminate]. cbn [bind].
  intros Hs. rewrite Hs. cbn [bind].
  do 4 eexists. repeat (split; [reflexivity|]).
  cbn [report_coaching report_competitions coaching_cost competition_cost].
  repeat split.
  - destruct (hours >? 0) eqn:E; [discriminate | lia].
  - intros ->. reflexivity.
  - intros H. replace (hours >? 0) with true by lia. reflexivity.
  - destruct (comps >? 0) eqn:E; [discriminate | lia].
  - intros ->. reflexivity.
  - intros H. replace (comps >? 0) with true by lia. reflexivity.
  - intros H. rewrite (Hb H). reflexivity.
Qed.

Local Ltac whole_pounds n :=
  exists n; split; [lia|]; split; [vm_compute; reflexivity|];
  split; [vm_compute; reflexivity|]; vm_compute; reflexivity.

(** The monthly fee of a constructed athlete is a whole number of pounds
    between 100 and 418, at least the training cost, and [format_currency]
    shows it as the pound sign, that number and [.00]. *)
Theorem monthly_fee_is_whole_pounds (r : Athlete.t) (fees : Athlete.fees) :
  constructed r -> calculate_monthly_fees r = Ok fees ->
  exists n : Z,
    100 <= n <= 418
    /\ total_cost fees = float_of_int n
    /\ (training_cost fees <=? total_cost fees)%float = true
    /\ format_currency (total_cost fees) = pound ++ PyStr.of_int n ++ ".00".
Proof.
  intros (typed & plan & w & comps & hours & E). apply init_ok in E.
  destruct E as (_ & Hplan & _ & _ & Hc & _ & Hh & ->).
  apply dict_mem_plans in Hplan.
  assert (Hcs : comps = 0 \/ comps = 1 \/ comps = 2 \/ comps = 3 \/ comps = 4) by lia.
  assert (Hhs : hours = 0 \/ hours = 1 \/ hours = 2 \/ hours = 3 \/ hours = 4 \/ hours = 5) by lia.
  clear Hc Hh.
  unfold calculate_monthly_fees. cbn [training_plan private_coaching_hours competitions].
  destruct Hplan as [ -> | [ -> | -> ] ];
    cbn [dict_getitem dict_get String.eqb Ascii.eqb Bool.eqb andb bind];
    intros Hf; inversion Hf; subst fees; clear Hf;
    cbn [total_cost training_cost weekly_fee];
    repeat match goal with H : _ \/ _ |- _ => destruct H as [H|H] end; subst.
  all: match goal with
       | |- context [(?t + ?c + ?k)%float] =>
           let v := eval vm_compute in (trunc (t + c + k)%float) in
           match v with Some ?n => whole_pounds n end
       end.
Qed.

Section NumberInput.
Variable py_float : string -> option float.


(** At the three places [register_athlete] calls it, [validate_number_input]
    reports a text that is not a number as "... must be a valid number", a
    number below the minimum as "... must be at least ...", a number above the
    maximum as "... cannot exceed ...", in this order, and returns the number
    otherwise: the [except] clause rewrites the failed conversion and nothing
    else. *)
Theorem validate_number_input_at_the_form (value field : string) (lo hi : Z) :
  In (field, lo, hi)
     [("Weight", 30, 200); ("Competitions", 0, 4);
      ("Private coaching hours", 0, MAX_PRIVATE_COACHING_HOURS)] ->
  validate_number_input py_float value field lo (Some hi)
  = match py_float value with
    | None => Raise (ValueError (field ++ " must be a valid number"))
    | Some x =>
        if (x <? float_of_int lo)%float
        then Raise (ValueError (field ++ " must be at least " ++ PyStr.of_int lo))
        else if (float_of_int hi <? x)%float
        then Raise (ValueError (field ++ " cannot exceed " ++ PyStr.of_int hi))
        else Ok x
    end.
Proof.
  intros Hsite. unfold validate_number_input, validate_number_input_body.
  destruct (py_float value) as [x|].
  - cbn in Hsite.
    destruct Hsite as [E|[E|[E|[]]]]; inversion E; subst; clear E;
      destruct (x <? _)%float; try reflexivity;
      destruct (_ <? x)%float; reflexivity.
  - assert (Hc : PyStr.contains "could not convert"
                   ("could not convert string to float: " ++ PyStr.repr value) = true)
      by reflexivity.
    rewrite Hc. reflexivity.
Qed.

End NumberInput.

(** ** The widgets and the list *)

Lemma constructed_known_plan (a : Athlete.t) : constructed a -> known_plan a.
Proof.
  intros (typed & plan & w & comps & hours & E). apply init_ok in E.
  destruct E as (_ & Hplan & _ & _ & _ & _ & _ & ->). exact Hplan.
Qed.

Lemma constructed_all_known (l : list Athlete.t) :
  Forall constructed l -> Forall known_plan l.
Proof. intros H. eapply Forall_impl; [|exact H]. exact constructed_known_plan. Qed.

Lemma init_raises_value_error (typed plan : string) (w : float) (comps hours : Z) (e : exn) :
  Athlete.__init__ typed plan w comps hours = Raise e -> exists msg, e = ValueError msg.
Proof.
  intros H. apply (init_raises (fun _ => None)) in H. cbn in H.
  repeat (destruct H as [H|H]; [rewrite <- H; eexists; reflexivity|]). contradiction.
Qed.

Lemma set_athletes_same (self : JudoManagementSystem) :
  set_athletes (athletes self) self = self.
Proof. destruct self; reflexivity. Qed.

(** The loop of [load_initial_data] raises nothing and appends the samples
    that pass validation. *)
Lemma load_samples_appends (l : list (string * string * float * Z * Z))
    (self : JudoManagementSystem) :
  load_samples l self = (Ok tt, set_athletes (athletes self ++ accepted l) self).
Proof.
  revert self. induction l as [|[[[[typed plan] w] comps] hours] l IH]; intros self.
  - cbn. rewrite app_nil_r, set_athletes_same. reflexivity.
  - cbn [load_samples accepted].
    destruct (Athlete.__init__ typed plan w comps hours) as [a|e] eqn:E.
    + unfold bindM at 1, modify. rewrite IH. cbn. rewrite <- app_assoc. reflexivity.
    + destruct (init_raises_value_error _ _ _ _ _ _ E) as (msg & ->).
      unfold bindM at 1, ret. apply IH.
Qed.

Lemma accepted_constructed (l : list (string * string * float * Z * Z)) :
  Forall constructed (accepted l).
Proof.
  induction l as [|[[[[typed plan] w] comps] hours] l IH]; cbn [accepted]; [constructor|].
  destruct (Athlete.__init__ typed plan w comps hours) as [a|e] eqn:E; [|exact IH].
  constructor; [|exact IH]. unfold constructed. eauto 10.
Qed.

Lemma insert_rows_mirrors (l : list Athlete.t) (self : JudoManagementSystem) :
  Forall known_plan l ->
  exists lines,
    insert_rows l self = (Ok tt, set_athlete_display (athlete_display self ++ lines) self)
    /\ Forall2 mirrors lines l.
Proof.
  intros Hl. revert self. induction Hl as [|a l Ha Hl IH]; intros self.
  - exists []. split; [|constructor]. cbn. rewrite app_nil_r. destruct self; reflexivity.
  - destruct (known_plan_fees a Ha) as [f Hf].
    cbn [insert_rows]. unfold bindM at 1, lift. rewrite Hf.
    unfold bindM at 1, modify.
    match goal with |- context [insert_rows l ?s] => destruct (IH s) as (lines & E & Hs) end.
    rewrite E. eexists (_ :: lines). split.
    + cbn. rewrite <- app_assoc. reflexivity.
    + constructor; [|exact Hs]. exists f. split; [exact Hf | reflexivity].
Qed.

Lemma refresh_mirrors (self : JudoManagementSystem) :
  Forall known_plan (athletes self) ->
  exists lines,
    refresh_athlete_display self = (Ok tt, set_athlete_display lines self)
    /\ Forall2 mirrors lines (athletes self).
Proof.
  intros Hk. unfold refresh_athlete_display, bindM, modify, get. cbn.
  destruct (insert_rows_mirrors (athletes self) (set_athlete_display [] self) Hk)
    as (lines & E & Hs).
  change (athletes (set_athlete_display [] self)) with (athletes self).
  rewrite E. exists lines. split; [|exact Hs]. reflexivity.
Qed.

(** The lines that mirror a list are determined by the list. *)
Lemma mirrors_determined (l : list Athlete.t) (lines lines' : list row) :
  Forall2 mirrors lines l -> Forall2 mirrors lines' l -> lines = lines'.
Proof.
  intros H. revert lines'. induction H as [|line a lines l Hm _ IH]; intros lines' H'.
  - inversion H'. reflexivity.
  - inversion H' as [|line' ? lines'' ? Hm' Hrest]; subst.
    f_equal; [|apply IH; exact Hrest].
    destruct Hm as (f & Hf & ->), Hm' as (f' & Hf' & ->). congruence.
Qed.

Lemma update_athlete_selector_sets (self : JudoManagementSystem) :
  update_athlete_selector self
  = (Ok tt, set_athlete_selector (map name (athletes self))
              (hd "" (map name (athletes self))) self).
Proof.
  unfold update_athlete_selector, modify.
  destruct (map name (athletes self)); reflexivity.
Qed.

Lemma refresh_then_update (l : list Athlete.t) (self : JudoManagementSystem) :
  Forall known_plan l ->
  exists lines,
    Forall2 mirrors lines l
    /\ bindM refresh_athlete_display (fun _ => update_athlete_selector) (set_athletes l self)
       = (Ok tt, brought_up_to_date l lines self).
Proof.
  intros Hk.
  destruct (refresh_mirrors (set_athletes l self) Hk) as (lines & E & Hs).
  exists lines. split; [exact Hs|].
  unfold bindM. rewrite E, update_athlete_selector_sets. reflexivity.
Qed.

Section Widgets.
Variable py_float : string -> option float.

(** What a successful [registration_attempt] read from the form. *)
Lemma registration_attempt_fields (self : JudoManagementSystem) (a : Athlete.t) :
  registration_attempt py_float self = Ok a ->
  exists weight competitions coaching,
    validate_number_input py_float (weight_field self) "Weight" 30 (Some 200) = Ok weight
    /\ validate_number_input py_float (competitions_field self) "Competitions" 0 (Some 4)
       = Ok competitions
    /\ validate_number_input py_float (coaching_field self) "Private coaching hours" 0
         (Some MAX_PRIVATE_COACHING_HOURS) = Ok coaching
    /\ exists n h,
         py_int competitions = Ok n /\ py_int coaching = Ok h
         /\ Athlete.__init__ (PyStr.strip (name_field self)) (plan_var self) weight n h = Ok a.
Proof.
  unfold registration_attempt.
  destruct (PyStr.strip (name_field self) =? "")%string; [discriminate|].
  destruct (existsb _ (athletes self)); [discriminate|].
  destruct (validate_number_input _ (weight_field self) _ _ _) as [weight|e];
    [|discriminate]. cbn [bind].
  destruct (validate_number_input _ (competitions_field self) _ _ _) as [competitions|e];
    [|discriminate]. cbn [bind].
  destruct (py_int competitions) as [n|e] eqn:En; [|discriminate].
  destruct (validate_number_input _ (coaching_field self) _ _ _) as [coaching|e];
    [|discriminate]. cbn [bind].
  destruct (py_int coaching) as [h|e] eqn:Eh; [|discriminate].
  intros E. exists weight, competitions, coaching. repeat split.
  exists n, h. auto.
Qed.

Lemma registration_commit_runs (a : Athlete.t) (self : JudoManagementSystem) :
  Forall known_plan (athletes self) -> known_plan a ->
  exists lines,
    Forall2 mirrors lines (athletes self ++ [a])
    /\ registration_commit a self
       = (Ok (showinfo "Registration Complete"
                (name a ++ " has been successfully registered!")),
          set_form "" "Beginner" "" "0" "0"
            (brought_up_to_date (athletes self ++ [a]) lines self)).
Proof.
  intros Hk Ha.
  assert (Hk' : Forall known_plan (athletes self ++ [a])).
  { apply Forall_app. split; [exact Hk | constructor; [exact Ha | constructor]]. }
  destruct (refresh_mirrors (set_athletes (athletes self ++ [a]) self) Hk')
    as (lines & E & Hs).
  exists lines. split; [exact Hs|].
  unfold registration_commit. unfold bindM at 1, modify at 1.
  unfold bindM at 1. rewrite E.
  unfold bindM at 1. rewrite update_athlete_selector_sets. reflexivity.
Qed.

(** A confirmed removal, in full. *)
Lemma remove_athlete_runs (item : nat) (rest : list nat) (line : row)
    (self : JudoManagementSystem) :
  Forall known_plan (athletes self) ->
  nth_error (athlete_display self) item = Some line ->
  let kept := filter (fun a => negb (name a =? row_name line)%string) (athletes self) in
  exists lines,
    Forall2 mirrors lines kept
    /\ remove_athlete (item :: rest) true self
       = (Ok [showinfo "Athlete Removed" (row_name line ++ " has been removed from the system")],
          brought_up_to_date kept lines self).
Proof.
  intros Hk Hitem kept.
  assert (Hk' : Forall known_plan kept).
  { unfold kept. rewrite Forall_forall in *. intros a Ha. apply filter_In in Ha.
    apply Hk. tauto. }
  destruct (refresh_mirrors (set_athletes kept self) Hk') as (lines & E & Hs).
  exists lines. split; [exact Hs|].
  unfold remove_athlete. unfold bindM at 1, get. unfold bindM at 1, lift.
  rewrite Hitem. unfold bindM at 1, modify at 1. fold kept.
  unfold bindM at 1. rewrite E.
  unfold bindM at 1. rewrite update_athlete_selector_sets. reflexivity.
Qed.

Lemma in_step_frame (self self' : JudoManagementSystem) :
  athletes self' = athletes self -> athlete_display self' = athlete_display self ->
  athlete_selector self' = athlete_selector self ->
  in_step self -> in_step self'.
Proof. unfold in_step. intros -> -> ->. trivial. Qed.

Lemma brought_up_to_date_in_step (l : list Athlete.t) (lines : list row)
    (self : JudoManagementSystem) :
  Forall constructed l -> Forall2 mirrors lines l ->
  in_step (brought_up_to_date l lines self).
Proof. intros Hc Hm. repeat split; assumption. Qed.

Lemma registration_attempt_constructed (self : JudoManagementSystem) (a : Athlete.t) :
  registration_attempt py_float self = Ok a -> constructed a.
Proof.
  intros H. apply registration_attempt_fields in H.
  destruct H as (w & c & k & _ & _ & _ & n & h & _ & _ & E).
  unfold constructed. eauto 10.
Qed.

Lemma generate_individual_report_selector (self : JudoManagementSystem) :
  athlete_selector (snd (generate_individual_report self)) = athlete_selector self.
Proof.
  unfold generate_individual_report, bindM, get, lift, modify, ret.
  destruct (athletes self) as [|first others]; [reflexivity|].
  destruct (selected_athlete_var self =? "")%string; [reflexivity|].
  destruct (find _ _); [|reflexivity].
  destruct (generate_fee_report _); reflexivity.
Qed.

Lemma generate_summary_report_selector (self : JudoManagementSystem) :
  athlete_selector (snd (generate_summary_report self)) = athlete_selector self.
Proof.
  unfold generate_summary_report, bindM, get, lift, modify, ret.
  destruct (athletes self) as [|first others]; [reflexivity|].
  destruct (summarise _); reflexivity.
Qed.

Lemma initial_runs :
  exists lines,
    Forall2 mirrors lines (accepted sample_data)
    /\ JudoManagementSystem__init__
       = (Ok tt, brought_up_to_date (accepted sample_data) lines created).
Proof.
  assert (Hk : Forall known_plan (accepted sample_data))
    by (apply constructed_all_known, accepted_constructed).
  destruct (refresh_mirrors (set_athletes (accepted sample_data) created) Hk)
    as (lines & E & Hs).
  exists lines. split; [exact Hs|].
  unfold JudoManagementSystem__init__, load_initial_data.
  unfold bindM at 1. rewrite load_samples_appends.
  change (athletes created ++ accepted sample_data)%list with (accepted sample_data).
  unfold bindM at 1. rewrite E. rewrite update_athlete_selector_sets. reflexivity.
Qed.

Lemma perform_in_step (a : action) (self : JudoManagementSystem) :
  in_step self -> in_step (perform py_float a self).
Proof.
  intros Hc.
  destruct a as [text|text|text|text|chosen|chosen| | | |selection answer| | ];
    cbn [perform];
    try (apply (in_step_frame self); [reflexivity | reflexivity | reflexivity | exact Hc]).
  - (* SelectPlan *)
    unfold on_plan_change, bindM, get, modify, ret. cbn.
    destruct (chosen =? "Beginner")%string; apply (in_step_frame self); auto.
  - (* ClickRegister *)
    destruct Hc as (Hk & Hm & Hs).
    unfold register_athlete. rewrite register_athlete_body_views.
    destruct (registration_attempt py_float self) as [r|e] eqn:E.
    + pose proof (registration_attempt_constructed self r E) as Hr.
      destruct (registration_commit_runs r self (constructed_all_known _ Hk)
                  (constructed_known_plan r Hr)) as (lines & Hl & ->).
      cbn [snd]. apply (in_step_frame (brought_up_to_date (athletes self ++ [r]) lines self));
        try reflexivity.
      apply brought_up_to_date_in_step; [|exact Hl].
      apply Forall_app. split; [exact Hk | constructor; [exact Hr | constructor]].
    + destruct e; repeat split; assumption.
  - (* ClickRefresh *)
    destruct Hc as (Hk & Hm & Hs).
    destruct (refresh_mirrors self (constructed_all_known _ Hk)) as (lines & -> & Hl).
    repeat split; assumption.
  - (* ClickRemove *)
    destruct Hc as (Hk & Hm & Hs). unfold remove_athlete.
    destruct selection as [|item rest]; [repeat split; assumption|].
    unfold bindM at 1, get. unfold bindM at 1, lift.
    destruct (nth_error (athlete_display self) item) as [line|] eqn:Hitem;
      [|repeat split; assumption].
    destruct answer; [|repeat split; assumption].
    destruct (remove_athlete_runs item rest line self (constructed_all_known _ Hk) Hitem)
      as (lines & Hl & Hrun).
    unfold remove_athlete in Hrun. unfold bindM at 1, get in Hrun.
    unfold bindM at 1, lift in Hrun. rewrite Hitem in Hrun. rewrite Hrun. cbn [snd].
    apply brought_up_to_date_in_step; [|exact Hl].
    rewrite Forall_forall in *. intros x Hx. apply filter_In in Hx. apply Hk. tauto.
  - (* ClickIndividualReport *)
    destruct (generate_individual_report_frame self) as (Ea & Ed).
    apply (in_step_frame self); auto using generate_individual_report_selector.
  - (* ClickSummary *)
    destruct (generate_summary_report_frame self) as (Ea & Ed).
    apply (in_step_frame self); auto using generate_summary_report_selector.
Qed.

Lemma reachable_in_step (self : JudoManagementSystem) :
  reachable py_float self -> in_step self.
Proof.
  induction 1 as [|a self _ IH]; [|now apply perform_in_step].
  destruct initial_runs as (lines & Hl & ->). cbn [snd].
  apply brought_up_to_date_in_step; [apply accepted_constructed | exact Hl].
Qed.

End Widgets.


Lemma Forall2_nth_error {A B : Type} (R : A -> B -> Prop) (l : list A) (l' : list B)
    (i : nat) (x : A) :
  Forall2 R l l' -> nth_error l i = Some x -> exists y, nth_error l' i = Some y /\ R x y.
Proof.
  intros H. revert i. induction H as [|a b l l' Hab _ IH]; intros i Hi.
  - destruct i; discriminate.
  - destruct i as [|i]; cbn in *; [inversion Hi; subst; eauto | apply IH; exact Hi].
Qed.

Lemma mirrors_name (line : row) (a : Athlete.t) : mirrors line a -> row_name line = name a.
Proof. intros (f & _ & ->). reflexivity. Qed.

Lemma folded_names_distinct (l : list Athlete.t) :
  NoDup (folded_names l) -> NoDup (map name l).
Proof.
  unfold folded_names. intros H.
  rewrite <- (map_map name PyStr.lower) in H. exact (NoDup_map_inv _ _ H).
Qed.

(** Filtering out the one name at a position removes that position. *)
Lemma filter_out_name (l : list Athlete.t) (i : nat) (a : Athlete.t) :
  NoDup (map name l) -> nth_error l i = Some a ->
  filter (fun x => negb (name x =? name a)%string) l = (firstn i l ++ skipn (S i) l)%list.
Proof.
  revert i. induction l as [|x l IH]; intros i Hn Hi; [destruct i; discriminate|].
  cbn [map] in Hn. inversion Hn as [|? ? Hnotin Hrest]; subst.
  destruct i as [|i]; cbn in Hi.
  - inversion Hi; subst. cbn [filter firstn skipn app]. rewrite String.eqb_refl. cbn [negb].
    apply forallb_filter_id. apply forallb_forall. intros y Hy.
    apply negb_true_iff, String.eqb_neq. intros E. apply Hnotin. rewrite <- E.
    now apply in_map.
  - cbn [filter firstn skipn app].
    replace (name x =? name a)%string with false.
    + cbn [negb]. f_equal. apply IH; assumption.
    + symmetry. apply String.eqb_neq. intros E. apply Hnotin. rewrite E.
      apply in_map. eapply nth_error_In; eauto.
Qed.

Lemma find_by_name (l : list Athlete.t) (a : Athlete.t) :
  NoDup (map name l) -> In a l ->
  find (fun x => (name x =? name a)%string) l = Some a.
Proof.
  induction l as [|x l IH]; intros Hn Hin; [contradiction|].
  cbn [map] in Hn. inversion Hn as [|? ? Hnotin Hrest]; subst. cbn [find].
  destruct Hin as [->|Hin]; [now rewrite String.eqb_refl|].
  replace (name x =? name a)%string with false; [now apply IH|].
  symmetry. apply String.eqb_neq. intros E. apply Hnotin. rewrite E. now apply in_map.
Qed.

Lemma find_no_name (l : list Athlete.t) (selected : string) :
  ~ In selected (map name l) ->
  find (fun x => (name x =? selected)%string) l = None.
Proof.
  induction l as [|x l IH]; intros Hn; [reflexivity|]. cbn [find].
  replace (name x =? selected)%string with false.
  - apply IH. intros H. apply Hn. now right.
  - symmetry. apply String.eqb_neq. intros E. apply Hn. left. exact E.
Qed.

Lemma constructed_name (a : Athlete.t) :
  constructed a -> name a <> "" /\ PyStr.strip (name a) = name a.
Proof.
  intros (typed & plan & w & comps & hours & E). apply init_ok in E.
  destruct E as (Hn & _ & _ & _ & _ & _ & _ & ->). cbn [name].
  split; [exact Hn | apply strip_idempotent].
Qed.

Section Views.
Variable py_float : string -> option float.


(** A registration that ends with the "Registration Complete" box: the three
    number fields passed [validate_number_input], the athlete appended at the
    end of the list is the one constructed from the stripped name, the chosen
    plan, the weight as read and the integer parts of the other two numbers,
    the table and the selector show the new list, the first name is selected,
    and the form is back at its defaults. *)
Theorem registration_success (self final : JudoManagementSystem) (title message : string) :
  reachable py_float self ->
  register_athlete py_float self = (Ok (showinfo title message), final) ->
  exists weight competitions coaching n h a lines,
    validate_number_input py_float (weight_field self) "Weight" 30 (Some 200) = Ok weight
    /\ validate_number_input py_float (competitions_field self) "Competitions" 0 (Some 4)
       = Ok competitions
    /\ validate_number_input py_float (coaching_field self) "Private coaching hours" 0
         (Some 5) = Ok coaching
    /\ py_int competitions = Ok n /\ py_int coaching = Ok h
    /\ a = {| name := PyStr.strip (name_field self); training_plan := plan_var self;
              current_weight := weight; competitions := n; private_coaching_hours := h;
              weight_category := _determine_weight_category weight |}
    /\ Forall2 mirrors lines (athletes self ++ [a])
    /\ final = set_form "" "Beginner" "" "0" "0"
                 (brought_up_to_date (athletes self ++ [a]) lines self)
    /\ title = "Registration Complete"
    /\ message = PyStr.strip (name_field self) ++ " has been successfully registered!".
Proof.
  intros Hr Hreg. destruct (reachable_in_step py_float self Hr) as (Hc & _ & _).
  unfold register_athlete in Hreg. rewrite register_athlete_body_views in Hreg.
  destruct (registration_attempt py_float self) as [a|e] eqn:E;
    [|destruct e; discriminate Hreg].
  pose proof (registration_attempt_constructed py_float self a E) as Ha.
  destruct (registration_commit_runs a self (constructed_all_known _ Hc)
              (constructed_known_plan a Ha)) as (lines & Hl & Hrun).
  rewrite Hrun in Hreg. inversion Hreg; subst; clear Hreg.
  destruct (registration_attempt_fields py_float self a E)
    as (weight & competitions & coaching & Hw & Hcomp & Hcoach & n & h & Hn & Hh & Hinit).
  pose proof Hinit as Hfields. apply init_ok in Hfields.
  destruct Hfields as (_ & _ & _ & _ & _ & _ & _ & Hfields).
  rewrite strip_idempotent in Hfields.
  exists weight, competitions, coaching, n, h, a, lines.
  repeat (split; [assumption|]). split; [reflexivity|]. split; [reflexivity|].
  rewrite Hfields. reflexivity.
Qed.

(** Removal in a reachable state.  With nothing selected the callback warns
    and changes nothing; when the user declines it changes nothing; when the
    user confirms, the athlete shown on the first selected line, and no
    other, leaves the list, the table and the selector show the shortened
    list and the box names the athlete. *)
Theorem removal_takes_the_selected_line (self : JudoManagementSystem)
    (item : nat) (rest : list nat) (line : row) :
  reachable py_float self ->
  nth_error (athlete_display self) item = Some line ->
  (forall answer,
     remove_athlete [] answer self
     = (Ok [showwarning "No Selection" "Please select an athlete to remove"], self))
  /\ remove_athlete (item :: rest) false self = (Ok [], self)
  /\ exists a lines,
       nth_error (athletes self) item = Some a
       /\ row_name line = name a
       /\ Forall2 mirrors lines (firstn item (athletes self) ++ skipn (S item) (athletes self))
       /\ remove_athlete (item :: rest) true self
          = (Ok [showinfo "Athlete Removed" (name a ++ " has been removed from the system")],
             brought_up_to_date
               (firstn item (athletes self) ++ skipn (S item) (athletes self)) lines self).
Proof.
  intros Hr Hitem. destruct (reachable_in_step py_float self Hr) as (Hc & Hm & _).
  destruct (reachable_consistent py_float self Hr) as (_ & Hn & _).
  split; [reflexivity|]. split.
  - unfold remove_athlete, bindM, get, lift, ret. rewrite Hitem. reflexivity.
  - destruct (Forall2_nth_error _ _ _ _ _ Hm Hitem) as (a & Ha & Hma).
    pose proof (mirrors_name line a Hma) as Hname.
    destruct (remove_athlete_runs item rest line self (constructed_all_known _ Hc) Hitem)
      as (lines & Hl & Hrun).
    rewrite Hname in Hl, Hrun.
    rewrite (filter_out_name (athletes self) item a (folded_names_distinct _ Hn) Ha)
      in Hl, Hrun.
    exists a, lines. auto.
Qed.

End Views.

(** ** The plan distribution *)

Lemma dict_get_set {V : Type} (d : list (string * V)) (key key' : string) (v : V) :
  dict_get (dict_set d key v) key'
  = if (key =? key')%string then Some v else dict_get d key'.
Proof.
  induction d as [|[k old] d IH]; cbn [dict_set dict_get].
  - destruct (key =? key')%string; reflexivity.
  - destruct (k =? key)%string eqn:Ek; cbn [dict_get].
    + apply String.eqb_eq in Ek. subst k.
      destruct (key =? key')%string; reflexivity.
    + destruct (k =? key')%string eqn:Ek'; [|exact IH].
      apply String.eqb_eq in Ek'. subst k. now rewrite String.eqb_sym, Ek.
Qed.

Lemma dict_set_keys {V : Type} (d : list (string * V)) (key : string) (v : V) :
  NoDup (map fst d) ->
  NoDup (map fst (dict_set d key v))
  /\ (forall k, In k (map fst (dict_set d key v)) <-> k = key \/ In k (map fst d)).
Proof.
  induction d as [|[k old] d IH]; cbn [dict_set map fst]; intros Hn.
  - split; [repeat constructor; intros [] | intros k0; cbn; intuition].
  - inversion Hn as [|? ? Hnotin Hrest]; subst.
    destruct (k =? key)%string eqn:Ek; cbn [map fst].
    + apply String.eqb_eq in Ek. subst k. split; [exact Hn | intros k0; cbn; intuition].
    + destruct (IH Hrest) as (Hn' & Hin). split.
      * constructor; [|exact Hn']. rewrite Hin. intros [E|H]; [|contradiction].
        subst k. rewrite String.eqb_refl in Ek. discriminate.
      * intros k0. cbn. rewrite Hin. intuition.
Qed.

Lemma total_count_set (d : list (string * Z)) (key : string) (v : Z) :
  total_count (dict_set d key v) = total_count d - count_of d key + v.
Proof.
  unfold count_of. induction d as [|[k old] d IH]; cbn [dict_set dict_get total_count].
  - lia.
  - destruct (k =? key)%string; cbn [total_count]; lia.
Qed.

Lemma count_plans_fold (l : list Athlete.t) (d : list (string * Z)) :
  NoDup (map fst d) -> (forall k n, dict_get d k = Some n -> 0 < n) ->
  let r := fold_left count_step l d in
  NoDup (map fst r)
  /\ (forall k n, dict_get r k = Some n -> 0 < n)
  /\ (forall plan, count_of r plan = count_of d plan + on_plan plan l)
  /\ total_count r = total_count d + Z.of_nat (List.length l).
Proof.
  revert d. induction l as [|a l IH]; intros d Hn Hpos; cbn [fold_left].
  - unfold on_plan. cbn. repeat split; auto; intros; lia.
  - assert (Hn' : NoDup (map fst (count_step d a)))
      by (apply dict_set_keys; exact Hn).
    assert (Hpos' : forall k n, dict_get (count_step d a) k = Some n -> 0 < n).
    { intros k n. unfold count_step. rewrite dict_get_set.
      destruct (training_plan a =? k)%string; [|apply Hpos].
      intros E. inversion E; subst. unfold count_of.
      destruct (dict_get d (training_plan a)) as [m|] eqn:Em; [|lia].
      specialize (Hpos _ _ Em). lia. }
    destruct (IH (count_step d a) Hn' Hpos') as (H1 & H2 & H3 & H4).
    repeat split; auto.
    + intros plan. rewrite H3. unfold count_of at 1, count_step, on_plan.
      rewrite dict_get_set. cbn [filter].
      destruct (training_plan a =? plan)%string eqn:E.
      * apply String.eqb_eq in E. subst plan. cbn [List.length]. lia.
      * fold (count_of d plan). lia.
    + rewrite H4. unfold count_step. rewrite total_count_set. cbn [List.length]. lia.
Qed.

(** [plan_counts] of the summary: the plans are listed once each, a plan is
    listed exactly when some athlete is on it, its count is the number of
    athletes on it, and the counts add up to the number of athletes. *)
Theorem plan_distribution_counts (l : list Athlete.t) :
  NoDup (map fst (count_plans l))
  /\ (forall plan,
        dict_get (count_plans l) plan
        = if on_plan plan l =? 0 then None else Some (on_plan plan l))
  /\ (forall plan, In plan (map fst (count_plans l))
                   <-> exists a, In a l /\ training_plan a = plan)
  /\ total_count (count_plans l) = Z.of_nat (List.length l).
Proof.
  assert (Hfold : count_plans l = fold_left count_step l []) by reflexivity.
  destruct (count_plans_fold l [] ltac:(constructor) ltac:(discriminate))
    as (H1 & H2 & H3 & H4).
  rewrite <- Hfold in *. cbn in H3, H4.
  assert (Hget : forall plan,
            dict_get (count_plans l) plan
            = if on_plan plan l =? 0 then None else Some (on_plan plan l)).
  { intros plan. specialize (H3 plan). unfold count_of in H3.
    destruct (dict_get (count_plans l) plan) as [n|] eqn:E.
    - specialize (H2 _ _ E). subst n.
      destruct (on_plan plan l =? 0) eqn:Ez; [apply Z.eqb_eq in Ez; lia | reflexivity].
    - rewrite <- H3. reflexivity. }
  split; [exact H1|]. split; [exact Hget|]. split; [|exact H4].
  intros plan. split.
  - intros Hin. apply in_map_iff in Hin. destruct Hin as ([k n] & Ek & Hin). cbn in Ek. subst k.
    assert (Hsome : dict_get (count_plans l) plan <> None).
    { clear - Hin. induction (count_plans l) as [|[k v] d IH]; [contradiction|].
      cbn [dict_get]. destruct (k =? plan)%string eqn:E; [discriminate|].
      destruct Hin as [Heq|Hin]; [|now apply IH].
      inversion Heq; subst. rewrite String.eqb_refl in E. discriminate. }
    rewrite Hget in Hsome. destruct (on_plan plan l =? 0) eqn:Ez; [contradiction|].
    apply Z.eqb_neq in Ez. unfold on_plan in Ez.
    destruct (filter _ l) as [|a rest] eqn:Ef; [cbn in Ez; lia|].
    assert (Ha : In a (filter (fun a => (training_plan a =? plan)%string) l))
      by (rewrite Ef; now left).
    apply filter_In in Ha. destruct Ha as (Ha & Hp). apply String.eqb_eq in Hp. eauto.
  - intros (a & Ha & Hp).
    assert (Hpos : on_plan plan l <> 0).
    { unfold on_plan.
      assert (Hin : In a (filter (fun a => (training_plan a =? plan)%string) l))
        by (apply filter_In; split; [exact Ha | now apply String.eqb_eq]).
      destruct (filter _ l); [contradiction | cbn; lia]. }
    specialize (Hget plan). apply Z.eqb_neq in Hpos. rewrite Hpos in Hget.
    clear - Hget. induction (count_plans l) as [|[k v] d IH]; [discriminate|].
    cbn [dict_get] in Hget. cbn [map fst].
    destruct (k =? plan)%string eqn:E; [left; now apply String.eqb_eq | right; now apply IH].
Qed.

Lemma constructed_reports (a : Athlete.t) :
  constructed a ->
  exists fees report,
    calculate_monthly_fees a = Ok fees /\ generate_fee_report a = Ok report.
Proof.
  intros Ha. destruct (constructed_analysis a Ha) as (sentence & Hs).
  destruct (known_plan_fees a (constructed_known_plan a Ha)) as (fees & Hf).
  unfold generate_fee_report. rewrite Hf. cbn [bind].
  revert Hf. unfold calculate_monthly_fees.
  destruct (dict_getitem TRAINING_PLANS (training_plan a)) as [p|e]; [|discriminate].
  intros Hf. cbn [bind]. rewrite Hs. cbn [bind]. eauto.
Qed.

Lemma summary_loop_runs (l : list Athlete.t) (lines : list row)
    (all_reports : list report_block) (revenue : float) :
  Forall constructed l -> Forall2 mirrors lines l ->
  exists reports,
    Forall2 (fun report a => generate_fee_report a = Ok report) reports l
    /\ summary_loop l all_reports revenue
       = Ok ((all_reports ++ map FeeReport reports)%list, fee_column_total lines revenue).
Proof.
  intros Hc Hm. revert all_reports revenue.
  induction Hm as [|line a lines l Hline Hm IH]; intros all_reports revenue.
  - exists []. split; [constructor|]. cbn. now rewrite app_nil_r.
  - inversion Hc as [|? ? Ha Hrest]; subst.
    destruct (constructed_reports a Ha) as (fees & report & Hf & Hg).
    destruct Hline as (fees' & Hf' & ->). rewrite Hf in Hf'. inversion Hf'; subst fees'.
    destruct (IH Hrest (all_reports ++ [FeeReport report])%list
                (revenue + total_cost fees)%float) as (reports & Hrs & Hloop).
    exists (report :: reports). split; [constructor; assumption|].
    cbn [summary_loop]. rewrite Hg. cbn [bind]. rewrite Hf. cbn [bind].
    rewrite Hloop. cbn [map fee_column_total fold_left row_fee].
    rewrite <- app_assoc. reflexivity.
Qed.

Section Reports.
Variable py_float : string -> option float.

(** The four outcomes of "Generate Individual Report" in a state the
    application reaches: with no athletes an information box; with an empty
    selection a warning; with a selection that names no athlete the error
    "Selected athlete not found"; and with the name of an athlete of the
    list, the fee report of that athlete, and nothing else, in the report
    box, with no dialog.  Only the report box ever changes. *)
Theorem individual_report_outcomes (self : JudoManagementSystem) :
  reachable py_float self ->
  (athletes self = [] ->
   generate_individual_report self
   = (Ok [showinfo "No Athletes" "Please register athletes before generating reports"], self))
  /\ (athletes self <> [] -> selected_athlete_var self = "" ->
      generate_individual_report self
      = (Ok [showwarning "No Selection" "Please select an athlete for the report"], self))
  /\ (athletes self <> [] -> selected_athlete_var self <> "" ->
      ~ In (selected_athlete_var self) (map name (athletes self)) ->
      generate_individual_report self
      = (Ok [showerror "Error" "Selected athlete not found"], self))
  /\ (forall a, In a (athletes self) -> name a = selected_athlete_var self ->
      exists report,
        generate_fee_report a = Ok report
        /\ generate_individual_report self
           = (Ok [], set_report_display [FeeReport report] self)).
Proof.
  intros Hr. destruct (reachable_in_step py_float self Hr) as (Hc & _ & _).
  destruct (reachable_consistent py_float self Hr) as (_ & Hn & _).
  unfold generate_individual_report, bindM, get, lift, modify, ret.
  split; [intros ->; reflexivity|].
  split; [intros Hne ->; destruct (athletes self); [contradiction | reflexivity]|].
  split.
  - intros Hne Hsel Hnot. destruct (athletes self) as [|first others] eqn:El; [contradiction|].
    apply String.eqb_neq in Hsel. rewrite Hsel.
    rewrite (find_no_name _ _ Hnot). reflexivity.
  - intros a Ha Hname.
    rewrite Forall_forall in Hc. pose proof (Hc a Ha) as Hca.
    destruct (constructed_reports a Hca) as (fees & report & _ & Hg).
    destruct (constructed_name a Hca) as (Hnonempty & _).
    exists report. split; [exact Hg|].
    pose proof (find_by_name _ a (folded_names_distinct _ Hn) Ha) as Hfind.
    rewrite Hname in Hfind, Hnonempty.
    destruct (athletes self) as [|first others] eqn:El; [contradiction|].
    apply String.eqb_neq in Hnonempty. rewrite Hnonempty. rewrite Hfind, Hg. reflexivity.
Qed.

(** "Generate Summary Report" in a state the application reaches, with at
    least one athlete: nothing is raised and no dialog opens; the report box
    gets one fee report per athlete, in the order of the list, followed by
    the summary; the revenue of the summary is the Fee column of the overview
    table added up from the top, the average is the revenue divided by the
    number of athletes, and nothing but the report box changes. *)
Theorem summary_report_contents (self : JudoManagementSystem) :
  reachable py_float self ->
  athletes self <> [] ->
  exists reports,
    Forall2 (fun report a => generate_fee_report a = Ok report) reports (athletes self)
    /\ generate_summary_report self
       = (Ok [],
          set_report_display
            (map FeeReport reports
             ++ [Summary
                   {| summary_athletes := Z.of_nat (List.length (athletes self));
                      summary_revenue :=
                        fee_column_total (athlete_display self) (float_of_int 0);
                      summary_average :=
                        (fee_column_total (athlete_display self) (float_of_int 0)
                         / float_of_int (Z.of_nat (List.length (athletes self))))%float;
                      summary_plans := count_plans (athletes self) |}])%list
            self).
Proof.
  intros Hr Hne. destruct (reachable_in_step py_float self Hr) as (Hc & Hm & _).
  destruct (summary_loop_runs (athletes self) (athlete_display self) []
              (float_of_int 0) Hc Hm) as (reports & Hrs & Hloop).
  exists reports. split; [exact Hrs|].
  unfold generate_summary_report, bindM, get, lift, modify, ret.
  destruct (athletes self) as [|first others] eqn:El; [contradiction|].
  unfold summarise. rewrite Hloop. cbn [bind app]. unfold py_truediv.
  replace (Z.of_nat (List.length (first :: others)) =? 0) with false
    by (symmetry; apply Z.eqb_neq; cbn [List.length]; lia).
  reflexivity.
Qed.

End Reports.

(** [load_initial_data]: the loop raises nothing whatever the samples are, a
    sample that fails validation is skipped and the others are appended in
    their order; with the samples of the source all six are registered, so
    the application starts with six athletes, a table of six lines, and the
    first name selected. *)
Theorem sample_loading (l : list (string * string * float * Z * Z))
    (self : JudoManagementSystem) :
  load_samples l self = (Ok tt, set_athletes (athletes self ++ accepted l) self)
  /\ Forall constructed (accepted l)
  /\ (forall a, In a (accepted l)
                <-> exists typed plan weight competitions coaching,
                      In (typed, plan, weight, competitions, coaching) l
                      /\ Athlete.__init__ typed plan weight competitions coaching = Ok a)
  /\ fst JudoManagementSystem__init__ = Ok tt
  /\ map name (athletes initial)
     = ["James Mitchell"; "Sarah Chen"; "Robert Taylor"; "Emma Rodriguez";
        "Michael Johnson"; "Lisa Anderson"]
  /\ athlete_selector initial = map name (athletes initial)
  /\ map row_name (athlete_display initial) = map name (athletes initial)
  /\ selected_athlete_var initial = "James Mitchell".
Proof.
  split; [apply load_samples_appends|]. split; [apply accepted_constructed|].
  split.
  - intros a. induction l as [|[[[[typed plan] w] comps] hours] l IH]; cbn [accepted].
    + split; [contradiction | intros (? & ? & ? & ? & ? & [] & _)].
    + destruct (Athlete.__init__ typed plan w comps hours) as [b|e] eqn:E.
      * split.
        -- intros [->|Hin]; [do 5 eexists; split; [left; reflexivity | exact E]|].
           apply IH in Hin. destruct Hin as (t & p & w' & c & h & Hin & Hinit).
           do 5 eexists. split; [right; exact Hin | exact Hinit].
        -- intros (t & p & w' & c & h & [Heq|Hin] & Hinit).
           ++ inversion Heq; subst. rewrite E in Hinit. inversion Hinit. now left.
           ++ right. apply IH. eauto 10.
      * rewrite IH. split.
        -- intros (t & p & w' & c & h & Hin & Hinit). do 5 eexists.
           split; [right; exact Hin | exact Hinit].
        -- intros (t & p & w' & c & h & [Heq|Hin] & Hinit); [|eauto 10].
           inversion Heq; subst. rewrite E in Hinit. discriminate.
  - repeat split; vm_compute; reflexivity.
Qed.

Lemma digits2_pos_bound (m : positive) : Zpos m < 2 ^ Zpos (digits2_pos m).
Proof.
  induction m as [m IH|m IH|]; cbn [digits2_pos]; [| |reflexivity].
  all: rewrite Pos2Z.inj_succ, Z.pow_succ_r by lia; lia.
Qed.

Lemma mantissa_bound (x : float) (s : bool) (m : positive) (e : Z) :
  Prim2SF x = S754_finite s m e -> Zpos m < 2 ^ 53.
Proof.
  intros E. pose proof (Prim2SF_valid x) as H. rewrite E in H.
  unfold SpecFloat.valid_binary, bounded, canonical_mantissa, fexp in H.
  apply andb_true_iff in H. destruct H as (H & _).
  apply Z.eqb_eq in H.
  pose proof (digits2_pos_bound m) as Hd.
  assert (Hle : Zpos (digits2_pos m) <= 53) by (change prec with 53 in H; lia).
  eapply Z.lt_le_trans; [exact Hd|]. apply Z.pow_le_mono_r; lia.
Qed.

Lemma shiftl_within (m mt : positive) (e top : Z) :
  Zpos m < 2 ^ 53 -> Zpos mt = top * 2 ^ 50 -> 4 <= top ->
  e < -50 \/ (e = -50 /\ Zpos m <= Zpos mt) ->
  0 <= Z.shiftl (Zpos m) e <= top.
Proof.
  intros Hm Hmt Htop He.
  assert (Hneg : e <= 0) by lia.
  rewrite (Z.shiftl_div_pow2 _ _ Hneg).
  assert (Hpow : 0 < 2 ^ (- e)) by (apply Z.pow_pos_nonneg; lia).
  split; [apply Z.div_pos; lia|].
  destruct He as [He|(-> & Hle)].
  - assert (H51 : 2 ^ 51 <= 2 ^ (- e)) by (apply Z.pow_le_mono_r; lia).
    assert (Hlt : Zpos m / 2 ^ (- e) < 4); [|lia].
    apply Z.div_lt_upper_bound; [exact Hpow|].
    change (2 ^ 53) with (2 ^ 51 * 4) in Hm. nia.
  - change (- -50) with 50. rewrite Hmt in Hle.
    apply Z.div_le_upper_bound; lia.
Qed.

Lemma not_above (mt m : positive) (e : Z) :
  SFltb (S754_finite false mt (-50)) (S754_finite false m e) = false ->
  e < -50 \/ (e = -50 /\ Zpos m <= Zpos mt).
Proof.
  unfold SFltb. cbn [SFcompare]. rewrite Pos.compare_cont_spec. cbn [Pos.switch_Eq].
  destruct (Z.compare_spec (-50) e) as [He|He|He]; try discriminate.
  - subst e. destruct (Pos.compare_spec mt m) as [Hc|Hc|Hc]; try discriminate; intros _;
      right; split; lia.
  - intros _. left. lia.
Qed.

(** [int(x)] for a number that passed the bounds [0] and [top] of the form. *)
Lemma py_int_within (x : float) (top : Z) :
  top = 4 \/ top = 5 ->
  (x <? float_of_int 0)%float = false -> (float_of_int top <? x)%float = false ->
  (exists n, py_int x = Ok n /\ 0 <= n <= top)
  \/ py_int x = Raise (ValueError "cannot convert float NaN to integer").
Proof.
  intros Htop Hlo Hhi. unfold py_int, trunc.
  destruct (Prim2SF x) as [s|s| |s m e] eqn:E.
  - left. exists 0. split; [reflexivity | lia].
  - exfalso. rewrite ltb_spec in Hlo, Hhi. rewrite E in Hlo, Hhi.
    destruct s; [vm_compute in Hlo; discriminate|].
    destruct Htop as [ -> | -> ]; vm_compute in Hhi; discriminate.
  - right. apply is_nan_spec in E. rewrite E. reflexivity.
  - left. pose proof (mantissa_bound x s m e E) as Hm.
    rewrite ltb_spec in Hlo, Hhi. rewrite E in Hlo, Hhi.
    destruct s; [vm_compute in Hlo; discriminate|]. clear Hlo.
    eexists. split; [reflexivity|]. cbn [cond_Zopp].
    destruct Htop as [ -> | -> ].
    + change (Prim2SF (float_of_int 4)) with (S754_finite false 4503599627370496 (-50)) in Hhi.
      apply not_above in Hhi.
      apply (shiftl_within m 4503599627370496 e 4 Hm); [reflexivity | lia | exact Hhi].
    + change (Prim2SF (float_of_int 5)) with (S754_finite false 5629499534213120 (-50)) in Hhi.
      apply not_above in Hhi.
      apply (shiftl_within m 5629499534213120 e 5 Hm); [reflexivity | lia | exact Hhi].
Qed.

(** A weight that passed the bounds of the form passes those of the record. *)
Lemma weight_within (w : float) :
  (w <? float_of_int 30)%float = false -> (float_of_int 200 <? w)%float = false ->
  _validate_weight w = Ok w.
Proof.
  intros Hlo Hhi. unfold _validate_weight.
  change (float_of_int 200) with 200%float in Hhi. rewrite Hhi.
  replace (w <=? 0)%float with false; [reflexivity|].
  symmetry. revert Hlo. rewrite ltb_spec, leb_spec.
  change (Prim2SF (float_of_int 30)) with (S754_finite false 8444249301319680 (-48)).
  change (Prim2SF 0) with (S754_zero false).
  unfold SFltb, SFleb.
  destruct (Prim2SF w) as [s|s| |s m e]; cbn [SFcompare]; try reflexivity.
  - discriminate.
  - destruct s; [discriminate | reflexivity].
  - destruct s; [discriminate | reflexivity].
Qed.

Section FormErrors.
Variable py_float : string -> option float.

Lemma number_field_outcome (value field : string) (lo hi : Z) :
  In (field, lo, hi)
     [("Weight", 30, 200); ("Competitions", 0, 4);
      ("Private coaching hours", 0, MAX_PRIVATE_COACHING_HOURS)] ->
  (exists x,
     validate_number_input py_float value field lo (Some hi) = Ok x
     /\ (x <? float_of_int lo)%float = false /\ (float_of_int hi <? x)%float = false)
  \/ (exists msg,
        validate_number_input py_float value field lo (Some hi) = Raise (ValueError msg)
        /\ In msg registration_messages).
Proof.
  intros Hsite. unfold validate_number_input, validate_number_input_body.
  destruct (py_float value) as [x|].
  - cbn in Hsite.
    destruct Hsite as [E|[E|[E|[]]]]; inversion E; subst; clear E;
      (destruct (x <? _)%float eqn:Hlo;
       [right; eexists; split; [reflexivity | vm_compute; tauto]|]);
      (destruct (_ <? x)%float eqn:Hhi;
       [right; eexists; split; [reflexivity | vm_compute; tauto]|]);
      left; exists x; auto.
  - assert (Hc : PyStr.contains "could not convert"
                   ("could not convert string to float: " ++ PyStr.repr value) = true)
      by reflexivity.
    rewrite Hc. right. eexists. split; [reflexivity|].
    cbn in Hsite. destruct Hsite as [E|[E|[E|[]]]]; inversion E; subst; vm_compute; tauto.
Qed.

Lemma registration_attempt_raises (self : JudoManagementSystem) (e : exn) :
  registration_attempt py_float self = Raise e ->
  exists msg, e = ValueError msg /\ In msg registration_messages.
Proof.
  unfold registration_attempt.
  destruct (PyStr.strip (name_field self) =? "")%string eqn:Hname;
    [intros E; inversion E; eexists; split; [reflexivity | vm_compute; tauto]|].
  destruct (existsb _ _);
    [intros E; inversion E; eexists; split; [reflexivity | vm_compute; tauto]|].
  destruct (number_field_outcome (weight_field self) "Weight" 30 200)
    as [(w & -> & Hw1 & Hw2)|(msg & -> & Hmsg)]; [cbn; tauto| |];
    [|intros E; inversion E; eauto]. cbn [bind].
  destruct (number_field_outcome (competitions_field self) "Competitions" 0 4)
    as [(c & -> & Hc1 & Hc2)|(msg & -> & Hmsg)]; [cbn; tauto| |];
    [|intros E; inversion E; eauto]. cbn [bind].
  destruct (py_int_within c 4 (or_introl eq_refl) Hc1 Hc2) as [(n & -> & Hn)| ->];
    [|intros E; inversion E; eexists; split; [reflexivity | vm_compute; tauto]].
  cbn [bind].
  destruct (number_field_outcome (coaching_field self) "Private coaching hours" 0
              MAX_PRIVATE_COACHING_HOURS)
    as [(k & -> & Hk1 & Hk2)|(msg & -> & Hmsg)]; [cbn; tauto| |];
    [|intros E; inversion E; eauto]. cbn [bind].
  destruct (py_int_within k 5 (or_intror eq_refl) Hk1 Hk2) as [(h & -> & Hh)| ->];
    [|intros E; inversion E; eexists; split; [reflexivity | vm_compute; tauto]].
  cbn [bind].
  unfold Athlete.__init__, _validate_name. rewrite strip_idempotent, Hname. cbn [bind].
  unfold _validate_training_plan.
  destruct (dict_mem TRAINING_PLANS (plan_var self)); cbn [negb bind];
    [|intros E; inversion E; eexists; split; [reflexivity | vm_compute; tauto]].
  rewrite (weight_within w Hw1 Hw2). cbn [bind].
  unfold _validate_competitions.
  replace (n <? 0) with false by lia.
  destruct ((plan_var self =? "Beginner")%string && (n >? 0));
    [intros E; inversion E; eexists; split; [reflexivity | vm_compute; tauto]|].
  replace (n >? 4) with false by lia. cbn [bind].
  unfold _validate_coaching_hours, MAX_PRIVATE_COACHING_HOURS.
  replace (h <? 0) with false by lia. replace (h >? 5) with false by lia.
  cbn [bind]. discriminate.
Qed.

(** What the registration form can show as an error, in every state the
    application reaches: the box is titled "Registration Error", never
    "System Error", and its message is one of fourteen: the two of the name,
    the three of each number field, the failed conversion of a NaN, the
    unknown plan and the Beginner with competitions.  The range messages of
    the record itself (weight not above 0, weight above 200, negative or more
    than 4 competitions, negative or more than 5 coaching hours, empty name)
    never reach the user, the form having checked narrower bounds first. *)
Theorem registration_error_messages (self final : JudoManagementSystem)
    (title message : string) :
  reachable py_float self ->
  register_athlete py_float self = (Ok (showerror title message), final) ->
  title = "Registration Error"
  /\ In message registration_messages
  /\ ~ In message
       [ "Athlete name cannot be empty"; "Weight must be greater than 0 kg";
         "Weight value seems unrealistic"; "Number of competitions cannot be negative";
         "Maximum 4 competitions per month allowed";
         "Private coaching hours cannot be negative";
         "Maximum 5 hours of private coaching per week" ]
  /\ final = self.
Proof.
  intros Hr Hreg.
  destruct (register_athlete_outcome py_float self Hr)
    as [(e & He & Hd)|(a & final' & _ & Hd & _)]; rewrite Hd in Hreg;
    [|discriminate Hreg].
  destruct (registration_attempt_raises self e He) as (msg & -> & Hmsg).
  cbn [error_dialog] in Hreg. inversion Hreg; subst.
  split; [reflexivity|]. split; [exact Hmsg|]. split; [|reflexivity].
  intros Hin. unfold registration_messages in Hmsg. cbn [In] in Hmsg, Hin.
  repeat match goal with H : _ \/ _ |- _ => destruct H as [H|H] end;
    try contradiction; subst; discriminate.
Qed.

End FormErrors.

(** * Instances *)

Lemma C1_witness :
  Athlete.__init__ "J" "Intermediate" 75.0 2 3
  = Ok {| name := "J"; training_plan := "Intermediate"; current_weight := 75.0;
          competitions := 2; private_coaching_hours := 3;
          weight_category := "Light-Middleweight" |}
  /\ bind (Athlete.__init__ "B" "Beginner" 75.0 0 0) calculate_monthly_fees
     = Ok {| training_cost := 100.00; coaching_cost := 0;
             competition_cost := 0; total_cost := 100.00 |}.
Proof.
  split; [reflexivity|].
  exact (proj2 (proj2 (C1_monthly_fees "J" "Intermediate" 75.0 2 3 _ eq_refl))).
Defined.

Lemma C3_witness :
  (0 <? 66.1)%float = true /\ (66.1 <=? 200)%float = true
  /\ exists category, first_category WEIGHT_CATEGORIES 66.1 = Some category.
Proof.
  split; [reflexivity|]. split; [reflexivity|].
  destruct (C3_weight_category_lookup 66.1 eq_refl eq_refl) as (category & H & _).
  exists category. exact H.
Defined.

Lemma C4_witness :
  0 < 1 /\ exists e, Athlete.__init__ "Y" "Beginner" 75.0 1 0 = Raise e.
Proof.
  split; [lia|]. exact (proj1 (C4_beginner_has_no_competitions "Y" 75.0 1 0 ltac:(lia))).
Defined.

Lemma C6_witness :
  Athlete.__init__ "T" "Elite" 88.5 0 0
  = Ok {| name := "T"; training_plan := "Elite"; current_weight := 88.5;
          competitions := 0; private_coaching_hours := 0;
          weight_category := "Middleweight" |}
  /\ exists limit, dict_get WEIGHT_CATEGORIES "Middleweight" = Some limit.
Proof.
  split; [reflexivity|].
  destruct (proj2 (C6_weight_analysis "T" "Elite" 88.5 0 0 _ eq_refl)) as (limit & H & _).
  - discriminate.
  - exists limit. exact H.
Defined.

Lemma C5_witness :
  reachable reads initial /\ NoDup (folded_names (athletes initial)).
Proof.
  split; [apply reachable_init|].
  exact (proj1 (proj2 (proj2 (proj2
    (C5_registration_keeps_names_unique reads initial (reachable_init reads)))))).
Defined.

Lemma C7_witness :
  reachable reads (perform reads (TypeName " SARAH chen ") initial)
  /\ register_athlete reads (perform reads (TypeName " SARAH chen ") initial)
     = (Ok (showerror "Registration Error" "An athlete with this name is already registered"),
        perform reads (TypeName " SARAH chen ") initial).
Proof.
  split; [apply reachable_step, reachable_init|].
  apply (proj1 (proj2 (C7_rejection_is_atomic reads
           (perform reads (TypeName " SARAH chen ") initial)
           (reachable_step reads (TypeName " SARAH chen ") initial (reachable_init reads))))
         duplicate_name).
  vm_compute. reflexivity.
Defined.

Lemma C8_witness :
  athletes created = []
  /\ generate_summary_report created
     = (Ok [showinfo "No Athletes" "Please register athletes before generating reports"],
        created).
Proof.
  split; [reflexivity|].
  exact (proj1 (C8_summary_guards_empty_list created eq_refl)).
Defined.

Lemma C9_witness :
  reads (weight_field (set_form "Tom" "Elite" "25" "0" "0" initial)) = Some 25%float
  /\ (0 <? 25)%float = true /\ (25 <? 30)%float = true
  /\ exists message,
       register_athlete reads (set_form "Tom" "Elite" "25" "0" "0" initial)
       = (Ok (showerror "Registration Error" message),
          set_form "Tom" "Elite" "25" "0" "0" initial).
Proof.
  split; [reflexivity|]. split; [reflexivity|]. split; [reflexivity|].
  destruct (proj1 (C9_form_requires_30_kg reads
                     (set_form "Tom" "Elite" "25" "0" "0" initial) 25%float
                     eq_refl eq_refl eq_refl)) as (message & H & _).
  exists message. exact H.
Defined.

(** C8 as the specification words it fails on the empty registry: the
    callback does not raise [ZeroDivisionError] there, it opens the notice. *)
Lemma C8_counterexample :
  athletes created = []
  /\ fst (generate_summary_report created) <> Raise ZeroDivisionError
  /\ fst (generate_summary_report created)
     = Ok [showinfo "No Athletes" "Please register athletes before generating reports"].
Proof. split; [reflexivity|]. split; [discriminate | reflexivity]. Qed.

Lemma first_failure_witness :
  PrimFloat.is_nan 0 = false
  /\ Athlete.__init__ "Z" "Elite" 0 0 6 = Raise (ValueError "Weight must be greater than 0 kg").
Proof.
  split; [reflexivity|].
  exact (construction_reports_first_failure "Z" "Elite" 0 0 6 eq_refl).
Defined.

Lemma beginner_over_four_witness :
  4 < 5
  /\ exists e, Athlete.__init__ "Y" "Beginner" 75.0 5 0 = Raise e
               /\ e <> ValueError "Maximum 4 competitions per month allowed".
Proof.
  split; [lia|].
  destruct (beginner_over_four_competitions "Y" 75.0 5 0 ltac:(lia)) as (e & He & Hne & _).
  exists e. split; assumption.
Defined.

Lemma ann_constructed : constructed ann.
Proof. exists " Ann ", "Elite", 70%float, 2, 1. reflexivity. Defined.

Lemma weight_category_is_monotone_witness :
  (70 <=? 95)%float = true
  /\ dict_get WEIGHT_CATEGORIES (_determine_weight_category 70) = Some 73%float
  /\ dict_get WEIGHT_CATEGORIES (_determine_weight_category 95) = Some 100%float
  /\ (73 <=? 100)%float = true.
Proof.
  split; [reflexivity|]. split; [reflexivity|]. split; [reflexivity|].
  exact (weight_category_is_monotone 70 95 73 100 eq_refl eq_refl eq_refl).
Defined.

Lemma fee_report_of_constructed_witness :
  constructed ann /\ exists report, generate_fee_report ann = Ok report.
Proof.
  split; [exact ann_constructed|].
  destruct (fee_report_of_constructed ann ann_constructed)
    as (plan & fees & sentence & report & _ & _ & _ & Hreport & _).
  exists report. exact Hreport.
Defined.

Lemma monthly_fee_is_whole_pounds_witness :
  constructed ann /\ calculate_monthly_fees ann = Ok ann_fees
  /\ exists n : Z,
       100 <= n <= 418
       /\ total_cost ann_fees = float_of_int n
       /\ (training_cost ann_fees <=? total_cost ann_fees)%float = true
       /\ format_currency (total_cost ann_fees) = pound ++ PyStr.of_int n ++ ".00".
Proof.
  split; [exact ann_constructed|]. split; [reflexivity|].
  exact (monthly_fee_is_whole_pounds ann ann_fees ann_constructed eq_refl).
Defined.

Lemma validate_number_input_at_the_form_witness :
  In ("Weight", 30, 200)
     [("Weight", 30, 200); ("Competitions", 0, 4);
      ("Private coaching hours", 0, MAX_PRIVATE_COACHING_HOURS)]
  /\ validate_number_input reads "25" "Weight" 30 (Some 200)
     = Raise (ValueError "Weight must be at least 30").
Proof.
  split; [left; reflexivity|].
  exact (validate_number_input_at_the_form reads "25" "Weight" 30 200 (or_introl eq_refl)).
Defined.


Lemma registration_success_witness :
  reachable reads tom_typed
  /\ register_athlete reads tom_typed
     = (Ok (showinfo "Registration Complete" "Tom has been successfully registered!"),
        snd (register_athlete reads tom_typed))
  /\ exists a lines,
       name a = "Tom"
       /\ snd (register_athlete reads tom_typed)
          = set_form "" "Beginner" "" "0" "0"
              (brought_up_to_date (athletes tom_typed ++ [a]) lines tom_typed).
Proof.
  assert (Hr : reachable reads tom_typed)
    by (apply reachable_step, reachable_step, reachable_init).
  assert (Hreg : register_athlete reads tom_typed
                 = (Ok (showinfo "Registration Complete"
                          "Tom has been successfully registered!"),
                    snd (register_athlete reads tom_typed)))
    by (vm_compute; reflexivity).
  split; [exact Hr|]. split; [exact Hreg|].
  destruct (registration_success reads tom_typed _ _ _ Hr Hreg)
    as (weight & comps & coaching & n & h & a & lines & _ & _ & _ & _ & _ & Ha & _ & Hfinal & _).
  exists a, lines. split; [rewrite Ha; reflexivity | exact Hfinal].
Defined.

Lemma removal_takes_the_selected_line_witness :
  reachable reads initial
  /\ nth_error (athlete_display initial) 0 = Some first_line
  /\ remove_athlete [0%nat] false initial = (Ok [], initial).
Proof.
  split; [apply reachable_init|]. split; [reflexivity|].
  exact (proj1 (proj2
    (removal_takes_the_selected_line reads initial 0 [] first_line
       (reachable_init reads) eq_refl))).
Defined.

Lemma individual_report_outcomes_witness :
  reachable reads initial
  /\ In james (athletes initial) /\ name james = selected_athlete_var initial
  /\ exists report,
       generate_fee_report james = Ok report
       /\ generate_individual_report initial
          = (Ok [], set_report_display [FeeReport report] initial).
Proof.
  split; [apply reachable_init|]. split; [left; reflexivity|]. split; [reflexivity|].
  exact (proj2 (proj2 (proj2
    (individual_report_outcomes reads initial (reachable_init reads))))
    james (or_introl eq_refl) eq_refl).
Defined.

Lemma summary_report_contents_witness :
  reachable reads initial /\ athletes initial <> []
  /\ exists reports,
       Forall2 (fun report a => generate_fee_report a = Ok report) reports (athletes initial)
       /\ fst (generate_summary_report initial) = Ok [].
Proof.
  assert (Hne : athletes initial <> []) by (vm_compute; discriminate).
  split; [apply reachable_init|]. split; [exact Hne|].
  destruct (summary_report_contents reads initial (reachable_init reads) Hne)
    as (reports & Hreports & Hrun).
  exists reports. split; [exact Hreports | rewrite Hrun; reflexivity].
Defined.

Lemma registration_error_messages_witness :
  reachable reads initial
  /\ register_athlete reads initial
     = (Ok (showerror "Registration Error" "Please enter the athlete's name"), initial)
  /\ In "Please enter the athlete's name" registration_messages.
Proof.
  split; [apply reachable_init|]. split; [reflexivity|].
  exact (proj1 (proj2
    (registration_error_messages reads initial initial "Registration Error"
       "Please enter the athlete's name" (reachable_init reads) eq_refl))).
Defined.

(** ** Runs of the model *)

Example run_test_weight_category_assignment :
  map _determine_weight_category [65.0; 66.0; 70.0; 73.0; 80.0; 90.0; 100.0; 105.0]%float
  = ["Flyweight"; "Flyweight"; "Lightweight"; "Lightweight"; "Light-Middleweight";
     "Middleweight"; "Light-Heavyweight"; "Heavyweight"].
Proof. reflexivity. Qed.

Example run_test_weight_analysis :
  bind (Athlete.__init__ "Test" "Elite" 88.5 0 0) get_weight_analysis
  = Ok (CloseTo 88.5 "Middleweight" 90).
Proof. reflexivity. Qed.

Example run_test_name_validation :
  Athlete.__init__ "   " "Intermediate" 75.0 2 3
  = Raise (ValueError "Athlete name cannot be empty")
  /\ exists r, Athlete.__init__ "  John  " "Intermediate" 75.0 2 3 = Ok r /\ name r = "John".
Proof. split; [reflexivity|]. eexists. split; reflexivity. Qed.

Example run_remove_then_register :
  let removed := perform reads (ClickRemove [1%nat] true) initial in
  let filled := set_form " sarah CHEN " "Elite" "70.0" "2" "0" removed in
  map name (athletes removed)
  = ["James Mitchell"; "Robert Taylor"; "Emma Rodriguez"; "Michael Johnson"; "Lisa Anderson"]
  /\ fst (register_athlete reads (set_form " sarah CHEN " "Elite" "70.0" "2" "0" initial))
     = Ok (showerror "Registration Error" "An athlete with this name is already registered")
  /\ fst (register_athlete reads filled)
     = Ok (showinfo "Registration Complete" "sarah CHEN has been successfully registered!")
  /\ map name (athletes (snd (register_athlete reads filled)))
     = ["James Mitchell"; "Robert Taylor"; "Emma Rodriguez"; "Michael Johnson";
        "Lisa Anderson"; "sarah CHEN"].
Proof. repeat split; vm_compute; reflexivity. Qed.
